(** * Multi-agent research pipeline: planner decoding, source-quality
      evaluation, reflection loop and orchestration.

    Shallow embedding of [research_pipeline.py].

    - Python [str] values are [string]s; a character is a code point
      below 256.
    - The score of the evaluator is the exact rational [len(trusted) /
      len(urls)].  Python computes the correctly rounded binary64 quotient;
      rounding is monotone and 0.5 is representable, so the comparison with
      0.5 agrees with the exact one for any text with fewer than 2^53 URLs.
    - The model gateway ([CLIENT.chat.completions.create]), the clock and
      the notebook display are effects: they are threaded through an
      explicit state together with a log of the calls made.  A gateway
      call returns a text or raises; [display] only records what is shown
      and does not fail.
    - The planner keeps whatever [ast.literal_eval] decodes, so a plan is
      a Python value and its steps are values, formatted with [str] where
      the source puts them in an f-string. *)

From Stdlib Require Import String Ascii List ZArith QArith Bool Arith Lia.
From Stdlib Require Import DecimalString.
Import ListNotations.

Set Warnings "-register-all".
Close Scope Q_scope.
Open Scope string_scope.
Open Scope nat_scope.

(** ** Outcomes of Python computations *)

Inductive exn : Type :=
| SyntaxError
| ValueError
| TypeError
| ZeroDivisionError
| GatewayError (msg : string).

(** [Unmodelled] marks an input that leaves the fragment of Python syntax
    covered by the model of [ast.parse] below; nothing is claimed about
    what Python does there. *)
Inductive result (A : Type) : Type :=
| Returns (a : A)
| Raises (e : exn)
| Unmodelled.

Arguments Returns {A} a.
Arguments Raises {A} e.
Arguments Unmodelled {A}.

Definition rbind {A B} (r : result A) (k : A -> result B) : result B :=
  match r with
  | Returns a => k a
  | Raises e => Raises e
  | Unmodelled => Unmodelled
  end.

Fixpoint rmap_list {A B} (f : A -> result B) (l : list A) : result (list B) :=
  match l with
  | [] => Returns []
  | x :: xs =>
      rbind (f x) (fun y => rbind (rmap_list f xs) (fun ys => Returns (y :: ys)))
  end.

(** ** Python string operations *)

Module PyStr.

Definition chr (n : nat) : ascii := ascii_of_nat n.

Definition LF : ascii := chr 10.
Definition CR : ascii := chr 13.
Definition TAB : ascii := chr 9.
Definition nl : string := String LF EmptyString.

(** [s.startswith(p)], returning what follows the prefix. *)
Fixpoint drop_prefix (p s : string) : option string :=
  match p with
  | EmptyString => Some s
  | String a p' =>
      match s with
      | EmptyString => None
      | String b s' => if Ascii.eqb a b then drop_prefix p' s' else None
      end
  end.

Definition startswith (s p : string) : bool :=
  match drop_prefix p s with Some _ => true | None => false end.

(** [needle in hay] on strings: substring containment. *)
Fixpoint contains (needle hay : string) : bool :=
  startswith hay needle
  || match hay with
     | EmptyString => false
     | String _ rest => contains needle rest
     end.

(** [sep.join(parts)]. *)
Fixpoint join (sep : string) (parts : list string) : string :=
  match parts with
  | [] => EmptyString
  | [p] => p
  | p :: rest => p ++ sep ++ join sep rest
  end.

(** [s.lstrip(" \t")]. *)
Fixpoint lstrip_blank (s : string) : string :=
  match s with
  | String c rest =>
      if Ascii.eqb c " " || Ascii.eqb c TAB then lstrip_blank rest else s
  | EmptyString => s
  end.

Fixpoint chars (s : string) : list ascii :=
  match s with
  | EmptyString => []
  | String c rest => c :: chars rest
  end.

Definition str_of_Z (z : Z) : string := NilZero.string_of_int (Z.to_int z).

End PyStr.

(** ** Regular expressions used by the pipeline *)

Module Re.
Import PyStr.

(** [\s] on [str] patterns: the characters for which [str.isspace()]
    holds; below 256 these are 9-13, 28-32, 133 and 160. *)
Definition is_space (c : ascii) : bool :=
  let n := nat_of_ascii c in
  ((9 <=? n) && (n <=? 13)) || ((28 <=? n) && (n <=? 32))
  || (n =? 133) || (n =? 160).

(** The class [[^\s)\]]]. *)
Definition url_char (c : ascii) : bool :=
  negb (is_space c || Ascii.eqb c ")" || Ascii.eqb c "]").

(** Greedy [[^\s)\]]*]: the longest prefix made of class characters. *)
Fixpoint span_url (s : string) : string :=
  match s with
  | String c rest => if url_char c then String c (span_url rest) else EmptyString
  | EmptyString => EmptyString
  end.

(** A fixed scheme followed by [[^\s)\]]+], anchored at the start. *)
Definition match_scheme (scheme s : string) : option string :=
  match drop_prefix scheme s with
  | Some body =>
      match span_url body with
      | EmptyString => None
      | tail => Some (scheme ++ tail)
      end
  | None => None
  end.

(** [https?://[^\s)\]]+] anchored at the start of [s]: the optional [s]
    is tried first, then skipped. *)
Definition match_url (s : string) : option string :=
  match match_scheme "https://" s with
  | Some m => Some m
  | None => match_scheme "http://" s
  end.

(** Left-to-right scan for non-overlapping matches; [skip] counts the
    characters of the last match still to be passed over. *)
Fixpoint findall_from (skip : nat) (s : string) : list string :=
  match s with
  | EmptyString => []
  | String _ rest =>
      match skip with
      | S k => findall_from k rest
      | O =>
          match match_url s with
          | Some m => m :: findall_from (String.length m - 1) rest
          | None => findall_from 0 rest
          end
      end
  end.

(** [re.findall(r"(https?://[^\s)\]]+)", s)]. *)
Definition findall_urls (s : string) : list string := findall_from 0 s.

(** Greedy [.*\]] under DOTALL: the longest prefix that ends in "]". *)
Fixpoint upto_last_close (s : string) : option string :=
  match s with
  | EmptyString => None
  | String c rest =>
      match upto_last_close rest with
      | Some p => Some (String c p)
      | None => if Ascii.eqb c "]" then Some "]" else None
      end
  end.

(** [re.search(r"\[.*\]", s, re.DOTALL)], returning [match.group()]. *)
Fixpoint search_list (s : string) : option string :=
  match s with
  | EmptyString => None
  | String c rest =>
      if Ascii.eqb c "[" then
        match upto_last_close rest with
        | Some p => Some (String "[" p)
        | None => search_list rest
        end
      else search_list rest
  end.

End Re.

(** ** Python values and the literal decoder [ast.literal_eval]

    The AST and [_convert] follow CPython's [ast] module (3.9 and later,
    which the [list[str]] annotation of the source requires).  The parser
    covers a fragment of the expression syntax: brackets, parentheses,
    commas, blanks, quoted strings with the escapes for backslash, quotes,
    n, t and r, decimal integers, identifiers and the constants [True],
    [False], [None].  Every other character outside a string, every other
    escape, keywords, triple quotes, string prefixes, a line break at
    nesting depth 0 or inside a string, a NUL, brackets or syntax trees
    nested deeper than [max_depth] and integers longer than [max_digits]
    are [Unmodelled]. *)

Module Literal.
Import PyStr.

Inductive constant : Type :=
| CNone
| CBool (b : bool)
| CInt (n : Z)
| CStr (s : string).

(** The nodes of [ast] that the fragment can produce. *)
Inductive expr : Type :=
| Constant (c : constant)
| Name (id : string)
| PyTuple (elts : list expr)
| PyList (elts : list expr)
| Call (func : expr) (args : list expr)
| Subscript (value : expr) (slice : expr).

Inductive value : Type :=
| VNone
| VBool (b : bool)
| VInt (n : Z)
| VStr (s : string)
| VList (items : list value)
| VTuple (items : list value)
| VEmptySet.

Inductive token : Type :=
| TLBrack | TRBrack | TLPar | TRPar | TComma
| TStr (s : string)
| TInt (n : Z)
| TName (id : string)
| TConst (c : constant).

(** *** Tokenizer *)

Definition dquote : ascii := chr 34.
Definition squote : ascii := "'"%char.
Definition backslash : ascii := chr 92.

Definition max_depth : nat := 100.
Definition max_digits : nat := 4300.

Definition is_digit (c : ascii) : bool :=
  let n := nat_of_ascii c in (48 <=? n) && (n <=? 57).

Definition is_ident_start (c : ascii) : bool :=
  let n := nat_of_ascii c in
  ((65 <=? n) && (n <=? 90)) || ((97 <=? n) && (n <=? 122)) || (n =? 95).

Definition is_ident_char (c : ascii) : bool := is_ident_start c || is_digit c.

Definition keywords : list string :=
  [ "and"; "as"; "assert"; "async"; "await"; "break"; "class"; "continue";
    "def"; "del"; "elif"; "else"; "except"; "finally"; "for"; "from";
    "global"; "if"; "import"; "in"; "is"; "lambda"; "nonlocal"; "not";
    "or"; "pass"; "raise"; "return"; "try"; "while"; "with"; "yield" ].

Fixpoint rev_string (acc s : string) : string :=
  match s with
  | EmptyString => acc
  | String c rest => rev_string (String c acc) rest
  end.

(** The token of an identifier; [None] for a keyword outside the
    fragment. *)
Definition name_token (id : string) : option token :=
  if String.eqb id "True" then Some (TConst (CBool true))
  else if String.eqb id "False" then Some (TConst (CBool false))
  else if String.eqb id "None" then Some (TConst CNone)
  else if existsb (String.eqb id) keywords then None
  else Some (TName id).

Fixpoint all_zero (s : string) : bool :=
  match s with
  | EmptyString => true
  | String c rest => Ascii.eqb c "0" && all_zero rest
  end.

Fixpoint decimal_value (acc : Z) (s : string) : Z :=
  match s with
  | EmptyString => acc
  | String c rest =>
      decimal_value (10 * acc + Z.of_nat (nat_of_ascii c - 48))%Z rest
  end.

(** The token of a run of digits; [None] for a leading zero before a
    nonzero digit and for runs over [max_digits]. *)
Definition int_token (digits : string) : option token :=
  if max_digits <? String.length digits then None
  else match digits with
       | String "0" (String _ _) =>
           if all_zero digits then Some (TInt 0) else None
       | _ => Some (TInt (decimal_value 0 digits))
       end.

(** Modes of the tokenizer; accumulators hold the characters read so
    far in reverse. *)
Inductive mode : Type :=
| Default
| InName (acc : string)
| InInt (acc : string)
| StrOpen (q : ascii)
| StrEmpty (q : ascii)
| InStr (q : ascii) (acc : string)
| InStrEsc (q : ascii) (acc : string).

(** One character in [Default] mode at nesting depth [d]: the tokens
    emitted, the next mode and the next depth. *)
Definition step_default (d : nat) (c : ascii)
  : option (list token * mode * nat) :=
  if Ascii.eqb c " " || Ascii.eqb c TAB then Some ([], Default, d)
  else if Ascii.eqb c LF || Ascii.eqb c CR then
    match d with O => None | S _ => Some ([], Default, d) end
  else if Ascii.eqb c "[" then
    if max_depth <=? d then None else Some ([TLBrack], Default, S d)
  else if Ascii.eqb c "(" then
    if max_depth <=? d then None else Some ([TLPar], Default, S d)
  else if Ascii.eqb c "]" then Some ([TRBrack], Default, Nat.pred d)
  else if Ascii.eqb c ")" then Some ([TRPar], Default, Nat.pred d)
  else if Ascii.eqb c "," then Some ([TComma], Default, d)
  else if Ascii.eqb c squote || Ascii.eqb c dquote then
    Some ([], StrOpen c, d)
  else if is_digit c then Some ([], InInt (String c EmptyString), d)
  else if is_ident_start c then Some ([], InName (String c EmptyString), d)
  else None.

(** A pending token is emitted, then the character is read in
    [Default] mode. *)
Definition emit_then (t : option token) (d : nat) (c : ascii)
  : option (list token * mode * nat) :=
  match t, step_default d c with
  | Some t, Some (ts, m, d') => Some (t :: ts, m, d')
  | _, _ => None
  end.

Definition step_str (q : ascii) (acc : string) (d : nat) (c : ascii)
  : option (list token * mode * nat) :=
  if Ascii.eqb c q then
    Some ([TStr (rev_string EmptyString acc)], Default, d)
  else if Ascii.eqb c backslash then Some ([], InStrEsc q acc, d)
  else if Ascii.eqb c LF || Ascii.eqb c CR || Ascii.eqb c zero then None
  else Some ([], InStr q (String c acc), d).

Definition unescape (c : ascii) : option ascii :=
  if Ascii.eqb c backslash then Some backslash
  else if Ascii.eqb c squote then Some squote
  else if Ascii.eqb c dquote then Some dquote
  else if Ascii.eqb c "n" then Some LF
  else if Ascii.eqb c "t" then Some TAB
  else if Ascii.eqb c "r" then Some CR
  else None.

Definition step (m : mode) (d : nat) (c : ascii)
  : option (list token * mode * nat) :=
  match m with
  | Default => step_default d c
  | InName acc =>
      if is_ident_char c then Some ([], InName (String c acc), d)
      else if Ascii.eqb c squote || Ascii.eqb c dquote then None
      else emit_then (name_token (rev_string EmptyString acc)) d c
  | InInt acc =>
      if is_digit c then Some ([], InInt (String c acc), d)
      else if is_ident_start c || Ascii.eqb c "." then None
      else emit_then (int_token (rev_string EmptyString acc)) d c
  | StrOpen q =>
      if Ascii.eqb c q then Some ([], StrEmpty q, d)
      else step_str q EmptyString d c
  | StrEmpty q =>
      if Ascii.eqb c q then None
      else emit_then (Some (TStr EmptyString)) d c
  | InStr q acc => step_str q acc d c
  | InStrEsc q acc =>
      match unescape c with
      | Some c' => Some ([], InStr q (String c' acc), d)
      | None => None
      end
  end.

(** End of input. *)
Definition finish (m : mode) : result (list token) :=
  match m with
  | Default => Returns []
  | InName acc =>
      match name_token (rev_string EmptyString acc) with
      | Some t => Returns [t]
      | None => Unmodelled
      end
  | InInt acc =>
      match int_token (rev_string EmptyString acc) with
      | Some t => Returns [t]
      | None => Unmodelled
      end
  | StrEmpty _ => Returns [TStr EmptyString]
  | StrOpen _ | InStr _ _ | InStrEsc _ _ => Raises SyntaxError
  end.

Fixpoint lex (m : mode) (d : nat) (s : string) : result (list token) :=
  match s with
  | EmptyString => finish m
  | String c rest =>
      match step m d c with
      | Some (ts, m', d') =>
          rbind (lex m' d' rest) (fun more => Returns (ts ++ more)%list)
      | None => Unmodelled
      end
  end.

Definition tokenize (s : string) : result (list token) := lex Default 0 s.

(** *** Parser ([ast.parse] in [eval] mode) *)

Inductive closer : Type := CloseBrack | ClosePar | CloseEnd.

Definition at_close (k : closer) (ts : list token) : option (list token) :=
  match k, ts with
  | CloseBrack, TRBrack :: r => Some r
  | ClosePar, TRPar :: r => Some r
  | CloseEnd, [] => Some []
  | _, _ => None
  end.

(** Adjacent string literals are concatenated. *)
Fixpoint collect_strings (s : string) (ts : list token) : string * list token :=
  match ts with
  | TStr s' :: r => collect_strings (s ++ s') r
  | _ => (s, ts)
  end.

(** [(e)] is [e]; [()], [(e,)] and [(e1, e2)] are tuples. *)
Definition paren_expr (es : list expr) (comma : bool) : expr :=
  match es, comma with
  | [e], false => e
  | _, _ => PyTuple es
  end.

(** The index of [v[...]]; an empty index is a syntax error. *)
Definition subscript_index (es : list expr) (comma : bool) : option expr :=
  match es, comma with
  | [], _ => None
  | [e], false => Some e
  | _, _ => Some (PyTuple es)
  end.

Fixpoint parse_primary (fuel : nat) (ts : list token)
  : result (expr * list token) :=
  match fuel with
  | O => Unmodelled
  | S fuel' =>
      match ts with
      | TName x :: r => parse_trailers fuel' (Name x) r
      | TConst c :: r => parse_trailers fuel' (Constant c) r
      | TInt n :: r => parse_trailers fuel' (Constant (CInt n)) r
      | TStr s :: r =>
          let '(s', r') := collect_strings s r in
          parse_trailers fuel' (Constant (CStr s')) r'
      | TLPar :: r =>
          rbind (parse_items fuel' ClosePar r)
                (fun '(es, comma, r') =>
                   parse_trailers fuel' (paren_expr es comma) r')
      | TLBrack :: r =>
          rbind (parse_items fuel' CloseBrack r)
                (fun '(es, _, r') => parse_trailers fuel' (PyList es) r')
      | _ => Raises SyntaxError
      end
  end
with parse_trailers (fuel : nat) (e : expr) (ts : list token)
  : result (expr * list token) :=
  match fuel with
  | O => Unmodelled
  | S fuel' =>
      match ts with
      | TLPar :: r =>
          rbind (parse_items fuel' ClosePar r)
                (fun '(es, _, r') => parse_trailers fuel' (Call e es) r')
      | TLBrack :: r =>
          rbind (parse_items fuel' CloseBrack r)
                (fun '(es, comma, r') =>
                   match subscript_index es comma with
                   | Some i => parse_trailers fuel' (Subscript e i) r'
                   | None => Raises SyntaxError
                   end)
      | _ => Returns (e, ts)
      end
  end
with parse_items (fuel : nat) (k : closer) (ts : list token)
  : result (list expr * bool * list token) :=
  match fuel with
  | O => Unmodelled
  | S fuel' =>
      match at_close k ts with
      | Some r => Returns ([], false, r)
      | None =>
          rbind (parse_primary fuel' ts)
                (fun '(e, r) =>
                   match r with
                   | TComma :: r1 =>
                       match at_close k r1 with
                       | Some r2 => Returns ([e], true, r2)
                       | None =>
                           rbind (parse_items fuel' k r1)
                                 (fun '(es, _, r2) => Returns (e :: es, true, r2))
                       end
                   | _ =>
                       match at_close k r with
                       | Some r1 => Returns ([e], false, r1)
                       | None => Raises SyntaxError
                       end
                   end)
      end
  end.

(** [expressions ENDMARKER]: one expression, or a tuple when a comma
    follows the first one. *)
Definition parse_tokens (ts : list token) : result expr :=
  rbind (parse_items (3 * List.length ts + 3) CloseEnd ts)
        (fun '(es, comma, _) =>
           match es, comma with
           | [], _ => Raises SyntaxError
           | [e], false => Returns e
           | _, _ => Returns (PyTuple es)
           end).

(** The nesting depth of a node. *)
Fixpoint expr_depth (e : expr) : nat :=
  match e with
  | Constant _ | Name _ => 1
  | PyTuple elts | PyList elts =>
      S (fold_right (fun x m => Nat.max (expr_depth x) m) 0 elts)
  | Call f args =>
      S (Nat.max (expr_depth f)
                 (fold_right (fun x m => Nat.max (expr_depth x) m) 0 args))
  | Subscript v i => S (Nat.max (expr_depth v) (expr_depth i))
  end.

(** CPython gives up on deeply nested trees with [RecursionError], at a
    depth that depends on the interpreter's state; trees deeper than
    [max_depth] are left out of the model. *)
Definition check_depth (e : expr) : result expr :=
  if max_depth <? expr_depth e then Unmodelled else Returns e.

Definition ast_parse (s : string) : result expr :=
  rbind (tokenize s) (fun ts => rbind (parse_tokens ts) check_depth).

(** *** [_convert] and [literal_eval] *)

Definition constant_value (c : constant) : value :=
  match c with
  | CNone => VNone
  | CBool b => VBool b
  | CInt n => VInt n
  | CStr s => VStr s
  end.

(** [_convert]: constants, tuples and lists of convertible nodes and the
    call [set()] are accepted; every other node is malformed.  (Sets,
    dicts and signed or complex numbers lie outside the fragment.) *)
Fixpoint _convert (node : expr) : result value :=
  match node with
  | Constant c => Returns (constant_value c)
  | PyTuple elts =>
      rbind ((fix go (l : list expr) : result (list value) :=
                match l with
                | [] => Returns []
                | e :: l' =>
                    rbind (_convert e)
                          (fun v => rbind (go l') (fun vs => Returns (v :: vs)))
                end) elts)
            (fun vs => Returns (VTuple vs))
  | PyList elts =>
      rbind ((fix go (l : list expr) : result (list value) :=
                match l with
                | [] => Returns []
                | e :: l' =>
                    rbind (_convert e)
                          (fun v => rbind (go l') (fun vs => Returns (v :: vs)))
                end) elts)
            (fun vs => Returns (VList vs))
  | Call (Name id) [] =>
      if String.eqb id "set" then Returns VEmptySet else Raises ValueError
  | _ => Raises ValueError
  end.

(** [ast.literal_eval(s)] on a string. *)
Definition literal_eval (s : string) : result value :=
  rbind (ast_parse (lstrip_blank s)) _convert.

(** *** [str] and [repr] of the decoded values *)

Definition hex_digit (n : nat) : ascii :=
  List.nth n (chars "0123456789abcdef") "0"%char.

Definition is_printable (c : ascii) : bool :=
  let n := nat_of_ascii c in
  ((32 <=? n) && (n <? 127)) || ((161 <=? n) && negb (n =? 173)).

Fixpoint repr_body (q : ascii) (s : string) : string :=
  match s with
  | EmptyString => EmptyString
  | String c rest =>
      (if Ascii.eqb c q || Ascii.eqb c backslash then
         String backslash (String c EmptyString)
       else if Ascii.eqb c TAB then String backslash "t"
       else if Ascii.eqb c LF then String backslash "n"
       else if Ascii.eqb c CR then String backslash "r"
       else if is_printable c then String c EmptyString
       else
         let n := nat_of_ascii c in
         String backslash
           (String "x" (String (hex_digit (n / 16))
                          (String (hex_digit (n mod 16)) EmptyString))))
      ++ repr_body q rest
  end.

Definition has_char (c : ascii) (s : string) : bool :=
  existsb (Ascii.eqb c) (chars s).

(** [repr] of a [str]: single quotes unless the text has a single quote
    and no double quote. *)
Definition repr_str (s : string) : string :=
  let q := if has_char squote s && negb (has_char dquote s)
           then dquote else squote in
  String q (repr_body q s ++ String q EmptyString).

Fixpoint py_repr (v : value) : string :=
  match v with
  | VNone => "None"
  | VBool true => "True"
  | VBool false => "False"
  | VInt n => str_of_Z n
  | VStr s => repr_str s
  | VList items => "[" ++ join ", " (List.map py_repr items) ++ "]"
  | VTuple [x] => "(" ++ py_repr x ++ ",)"
  | VTuple items => "(" ++ join ", " (List.map py_repr items) ++ ")"
  | VEmptySet => "set()"
  end.

(** [format(v, '')], which an f-string field [{v}] produces. *)
Definition py_str (v : value) : string :=
  match v with
  | VStr s => s
  | _ => py_repr v
  end.

(** The items a [for] loop over [v] visits; [TypeError] when [v] is not
    iterable. *)
Definition py_iter (v : value) : result (list value) :=
  match v with
  | VList items | VTuple items => Returns items
  | VStr s => Returns (List.map (fun c => VStr (String c EmptyString)) (chars s))
  | VEmptySet => Returns []
  | VNone | VBool _ | VInt _ => Raises TypeError
  end.

(** *** Syntactic classes of nodes *)

(** The nodes that [_convert] accepts, as a syntactic class. *)
Fixpoint literal_node (e : expr) : bool :=
  match e with
  | Constant _ => true
  | PyTuple elts | PyList elts => forallb literal_node elts
  | Call (Name id) [] => String.eqb id "set"
  | _ => false
  end.

(** A bare name. *)
Definition is_name (e : expr) : bool :=
  match e with Name _ => true | _ => false end.

End Literal.

(** ** List literals of strings, as text

    The text of a list of strings in the usual layout, used to state what
    the planner decodes. *)

Module Render.
Import PyStr Literal.

(** A character that may stand as it is between quotes [q]. *)
Definition plain_char (q c : ascii) : bool :=
  negb (Ascii.eqb c q || Ascii.eqb c backslash
        || Ascii.eqb c LF || Ascii.eqb c CR || Ascii.eqb c zero).

Definition plain (q : ascii) (s : string) : bool :=
  forallb (plain_char q) (chars s).

Definition quoted (q : ascii) (s : string) : string :=
  String q (s ++ String q EmptyString).

(** The list literal of the strings, with a comma and a blank between
    the items. *)
Definition render (q : ascii) (strs : list string) : string :=
  "[" ++ join ", " (List.map (quoted q) strs) ++ "]".

Fixpoint item_tokens (strs : list string) : list token :=
  match strs with
  | [] => []
  | [s] => [TStr s]
  | s :: rest => TStr s :: TComma :: item_tokens rest
  end.

(** The two quote characters of a string literal. *)
Definition is_quote (q : ascii) : Prop := q = squote \/ q = dquote.

(** The nodes of the strings as constants. *)
Definition string_nodes (strs : list string) : list expr :=
  List.map (fun s => Constant (CStr s)) strs.

End Render.

(** ** Effects: the model gateway, the clock and the display *)

Record message : Type := { role : string; content : string }.

(** The arguments of [CLIENT.chat.completions.create]. *)
Record request : Type :=
  { model : string; messages : list message; temperature : option Q }.

(** The [display(Markdown(...))] call sites of the source. *)
Inductive site : Type :=
| ShowTitle | ShowPlan | ShowVerdict | ShowDraftDone | ShowCritique
| ShowRule | ShowHeading | ShowReport.

Inductive event : Type :=
| Invoke (r : request)
| Display (at_site : site) (markdown : string).

Definition site_eqb (a b : site) : bool :=
  match a, b with
  | ShowTitle, ShowTitle | ShowPlan, ShowPlan | ShowVerdict, ShowVerdict
  | ShowDraftDone, ShowDraftDone | ShowCritique, ShowCritique
  | ShowRule, ShowRule | ShowHeading, ShowHeading | ShowReport, ShowReport => true
  | _, _ => false
  end.

(** The texts displayed at one call site, in order. *)
Definition displayed (s : site) (l : list event) : list string :=
  flat_map (fun e => match e with
                     | Display s' md => if site_eqb s s' then [md] else []
                     | Invoke _ => []
                     end) l.

(** The gateway requests made, in order. *)
Definition invoked (l : list event) : list request :=
  flat_map (fun e => match e with Invoke r => [r] | Display _ _ => [] end) l.

Definition PLANNER_MODEL : string := "openai:o4-mini".
Definition RESEARCH_MODEL : string := "openai:gpt-4o".
Definition WRITER_MODEL : string := "openai:gpt-4o".
Definition EDITOR_MODEL : string := "openai:o4-mini".

Definition user (text : string) : message := {| role := "user"; content := text |}.
Definition system (text : string) : message := {| role := "system"; content := text |}.

(** ** The evaluator's arithmetic *)

(** [a / b] on the lengths of two lists. *)
Definition py_truediv (a b : nat) : result Q :=
  match b with
  | O => Raises ZeroDivisionError
  | S _ => Returns (Z.of_nat a # Pos.of_nat b)%Q
  end.

Definition Qgtb (x y : Q) : bool := negb (Qle_bool x y).

Definition preferred_domains : list string :=
  [ "arxiv.org"; "nature.com"; "nasa.gov"; "science.org"; "mit.edu" ].

(** [any(dom in u for dom in preferred_domains)]. *)
Definition is_trusted (u : string) : bool :=
  existsb (fun dom => PyStr.contains dom u) preferred_domains.

Definition trusted_urls (urls : list string) : list string :=
  filter is_trusted urls.

(** [len(trusted) / len(urls) if urls else 0.0]. *)
Definition score_of (trusted urls : list string) : result Q :=
  match urls with
  | _ :: _ => py_truediv (List.length trusted) (List.length urls)
  | [] => Returns 0%Q
  end.

(** ["PASS" if score > 0.5 else "FAIL (Low Credibility)"]. *)
Definition status_of (score : Q) : string :=
  if Qgtb score (1 # 2)%Q then "PASS" else "FAIL (Low Credibility)".

(** The score and the status of a finding, as the evaluator computes
    them. *)
Definition score_value (finding : string) : Q :=
  match score_of (trusted_urls (Re.findall_urls finding)) (Re.findall_urls finding) with
  | Returns q => q
  | _ => 0%Q
  end.

Definition verdict_status (finding : string) : string :=
  status_of (score_value finding).

(** ** The planner's decoding step *)

(** [ast.literal_eval(match.group()) if match else [topic]] for
    [match = re.search(r"\[.*\]", content, re.DOTALL)]. *)
Definition decode_plan (topic content : string) : result Literal.value :=
  match Re.search_list content with
  | Some group => Literal.literal_eval group
  | None => Returns (Literal.VList [Literal.VStr topic])
  end.

(** ** The pipeline *)

Section Pipeline.
Import PyStr Literal.

(** The hidden state of the outside world and its three observers: the
    gateway call, [datetime.now().strftime("%Y-%m-%d")] and
    [format(score, ".1%")]. *)
Variable World : Type.
Variable gateway : request -> World -> result string * World.
Variable today : World -> string.
Variable percent1 : Q -> string.

Record state : Type := { world : World; log : list event }.

Definition M (A : Type) : Type := state -> result A * state.

Definition ret {A} (a : A) : M A := fun st => (Returns a, st).

Definition bind {A B} (m : M A) (k : A -> M B) : M B :=
  fun st =>
    match m st with
    | (Returns a, st') => k a st'
    | (Raises e, st') => (Raises e, st')
    | (Unmodelled, st') => (Unmodelled, st')
    end.

Definition lift {A} (r : result A) : M A := fun st => (r, st).

Definition record (e : event) (st : state) : state :=
  {| world := world st; log := (log st ++ [e])%list |}.

Definition invoke (r : request) : M string :=
  fun st =>
    let '(out, w) := gateway r (world st) in
    (out, {| world := w; log := (log st ++ [Invoke r])%list |}).

Definition display (s : site) (markdown : string) : M unit :=
  fun st => (Returns tt, record (Display s markdown) st).

Definition current_date : M string :=
  fun st => (Returns (today (world st)), st).

Notation "x <- m ;; k" := (bind m (fun x => k))
  (at level 61, m at next level, right associativity).
Notation "m ;;; k" := (bind m (fun _ => k))
  (at level 61, right associativity).

Definition planner_prompt (topic : string) : string :=
  nl ++ "    You are a Research Architect. Decompose the topic "
     ++ String dquote topic ++ String dquote " into 4-5 " ++ nl
     ++ "    atomic, sequential research steps. Return ONLY a valid Python list of strings."
     ++ nl ++ "    ".

Definition planner_request (topic : string) : request :=
  {| model := PLANNER_MODEL;
     messages := [user (planner_prompt topic)];
     temperature := Some 1%Q |}.

Definition plan_summary (steps : list value) : string :=
  "### Step 1: Planning" ++ nl ++ "**Workflow:**" ++ nl
  ++ join nl (List.map (fun s => "- " ++ py_str s) steps).

Definition planning_agent (topic : string) : M value :=
  content <- invoke (planner_request topic) ;;
  plan <- lift (decode_plan topic content) ;;
  steps <- lift (py_iter plan) ;;
  display ShowPlan (plan_summary steps) ;;;
  ret plan.

Definition research_prompt (date : string) (task : value) : string :=
  "Date: " ++ date ++ ". Perform deep research on: " ++ py_str task ++ ". "
  ++ "Provide citations and URLs.".

Definition research_request (date : string) (task : value) : request :=
  {| model := RESEARCH_MODEL;
     messages := [user (research_prompt date task)];
     temperature := None |}.

Definition tools_usage_agent (task : value) : M string :=
  date <- current_date ;;
  invoke (research_request date task).

(** U+1F50D lies outside the character model; it stands as its UTF-8
    bytes. *)
Definition magnifier : string :=
  String (chr 240) (String (chr 159) (String (chr 148) (String (chr 141) EmptyString))).

Definition analysis_of (status : string) (score : Q) : string :=
  "**Source Quality Analysis:** " ++ status ++ " | "
  ++ percent1 score ++ " preferred domains found.".

Definition verdict_markdown (analysis : string) : string :=
  "### " ++ magnifier ++ " Step 2: Tools Usage & Eval Analysis" ++ nl ++ analysis.

Definition eval_error_analysis (research_output : string) : M string :=
  let urls := Re.findall_urls research_output in
  let trusted := trusted_urls urls in
  score <- lift (score_of trusted urls) ;;
  let status := status_of score in
  let analysis := analysis_of status score in
  display ShowVerdict (verdict_markdown analysis) ;;;
  ret status.

Definition draft_request (topic data : string) : request :=
  {| model := WRITER_MODEL;
     messages := [user ("Draft an in-depth report on " ++ topic ++ " using: " ++ data)];
     temperature := None |}.

Definition critique_request (draft : string) : request :=
  {| model := EDITOR_MODEL;
     messages := [user ("Critique this for academic depth and accuracy:" ++ nl ++ draft)];
     temperature := None |}.

Definition revise_prompt (reflection draft : string) : string :=
  "Critique: " ++ reflection ++ nl ++ nl ++ "Draft: " ++ draft.

Definition revise_request (reflection draft : string) : request :=
  {| model := WRITER_MODEL;
     messages := [system "Revise based on critique."; user (revise_prompt reflection draft)];
     temperature := None |}.

Definition drafting_reflection_loop (topic data : string) : M string :=
  draft <- invoke (draft_request topic data) ;;
  display ShowDraftDone "### Step 3: Initial Drafting Complete" ;;;
  reflection <- invoke (critique_request draft) ;;
  display ShowCritique ("*** Step 4: Reflection & Critique" ++ nl ++ reflection) ;;;
  final_report <- invoke (revise_request reflection draft) ;;
  ret final_report.

Definition finding_entry (step : value) (raw_research : string) : string :=
  nl ++ nl ++ "--- Findings for: " ++ py_str step ++ " ---" ++ nl ++ raw_research.

(** The body of [for step in plan], over the steps still to visit. *)
Fixpoint research_loop (steps : list value) (accumulated_data : string) : M string :=
  match steps with
  | [] => ret accumulated_data
  | step :: rest =>
      raw_research <- tools_usage_agent step ;;
      eval_error_analysis raw_research ;;;
      research_loop rest (accumulated_data ++ finding_entry step raw_research)
  end.

Definition run_research_pipeline (topic : string) : M unit :=
  display ShowTitle ("# Research Analysis: " ++ topic) ;;;
  plan <- planning_agent topic ;;
  steps <- lift (py_iter plan) ;;
  accumulated_data <- research_loop steps EmptyString ;;
  final_polished_report <- drafting_reflection_loop topic accumulated_data ;;
  display ShowRule "---" ;;;
  display ShowHeading "****  Final Polished Indepth Report" ;;;
  display ShowReport final_polished_report ;;;
  ret tt.

(** The text displayed as the verdict on a finding. *)
Definition verdict_text (finding : string) : string :=
  verdict_markdown (analysis_of (verdict_status finding) (score_value finding)).

(** What one pass of the loop body adds to the log. *)
Definition step_events (entry : Literal.value * (string * string)) : list event :=
  let '(step, (date, finding)) := entry in
  [Invoke (research_request date step); Display ShowVerdict (verdict_text finding)].

End Pipeline.

Arguments world {World} s.
Arguments log {World} s.

(** ** The corpus of a run *)

(** The accumulated corpus for steps and their findings. *)
Fixpoint corpus (entries : list (Literal.value * string)) : string :=
  match entries with
  | [] => EmptyString
  | (step, finding) :: rest => finding_entry step finding ++ corpus rest
  end.

(** The corpus entries of what the loop went through. *)
Definition findings_of (entries : list (Literal.value * (string * string)))
  : list (Literal.value * string) :=
  List.map (fun e => (fst e, snd (snd e))) entries.

(** ** Vocabulary of the statements *)

(** [post] cannot extend a URL: it is empty or starts with a character
    outside the class. *)
Definition stops (post : string) : bool :=
  match post with
  | EmptyString => true
  | String c _ => negb (Re.url_char c)
  end.

(** [d] occurs in [u]. *)
Definition substring (d u : string) : Prop :=
  exists pre post, u = pre ++ d ++ post.

(** ** Vocabulary for the effects of a run *)

(** The outcome is a value. *)
Definition returned {A : Type} (r : result A) : bool :=
  match r with Returns _ => true | _ => false end.

(** Whatever the outcome, the computation only appends to the log, and
    every event it appends satisfies [P]. *)
Definition adds_only {World A : Type} (P : event -> Prop)
  (m : state World -> result A * state World) : Prop :=
  forall st, exists l, log (snd (m st)) = (log st ++ l)%list /\ Forall P l.


(** An event of the research loop over [steps]: a research request for one
    of the steps, or the display of a verdict. *)
Definition research_event (steps : list Literal.value) (e : event) : Prop :=
  match e with
  | Invoke r => exists date step, In step steps /\ r = research_request date step
  | Display s _ => s = ShowVerdict
  end.



(** Every exception that the computation raises satisfies [P]. *)
Definition raises_only {World A : Type} (P : exn -> Prop)
  (m : state World -> result A * state World) : Prop :=
  forall st e st', m st = (Raises e, st') -> P e.



(** ** The texts of a run, spelled out

    The requests and the corpus as the source writes them, stated without
    the definitions of the pipeline above, so that the theorems say in
    full what is sent to the gateway and what is gathered. *)

Definition newline : string := String (ascii_of_nat 10) EmptyString.

Definition planner_call (topic : string) : request :=
  {| model := "openai:o4-mini";
     messages :=
       [ {| role := "user";
            content :=
              newline ++ "    You are a Research Architect. Decompose the topic "
              ++ String (ascii_of_nat 34) topic
              ++ String (ascii_of_nat 34) " into 4-5 " ++ newline
              ++ "    atomic, sequential research steps. Return ONLY a valid Python list of strings."
              ++ newline ++ "    " |} ];
     temperature := Some 1%Q |}.

Definition research_call (date label : string) : request :=
  {| model := "openai:gpt-4o";
     messages :=
       [ {| role := "user";
            content :=
              "Date: " ++ date ++ ". Perform deep research on: " ++ label
              ++ ". Provide citations and URLs." |} ];
     temperature := None |}.

Definition draft_call (topic data : string) : request :=
  {| model := "openai:gpt-4o";
     messages :=
       [ {| role := "user";
            content := "Draft an in-depth report on " ++ topic ++ " using: " ++ data |} ];
     temperature := None |}.

Definition critique_call (draft : string) : request :=
  {| model := "openai:o4-mini";
     messages :=
       [ {| role := "user";
            content :=
              "Critique this for academic depth and accuracy:" ++ newline ++ draft |} ];
     temperature := None |}.

Definition revise_call (reflection draft : string) : request :=
  {| model := "openai:gpt-4o";
     messages :=
       [ {| role := "system"; content := "Revise based on critique." |};
         {| role := "user";
            content :=
              "Critique: " ++ reflection ++ newline ++ newline ++ "Draft: " ++ draft |} ];
     temperature := None |}.

(** One finding under the label of its step. *)
Definition labelled_finding (label finding : string) : string :=
  newline ++ newline ++ "--- Findings for: " ++ label ++ " ---" ++ newline ++ finding.

(** The corpus for entries (step, date, finding): the labelled findings one
    after the other. *)
Definition corpus_text (entries : list (Literal.value * (string * string))) : string :=
  fold_right append EmptyString
    (List.map (fun e => labelled_finding (Literal.py_str (fst e)) (snd (snd e))) entries).



(** A list whose items are all strings. *)
Definition list_of_strings (v : Literal.value) : bool :=
  match v with
  | Literal.VList items =>
      forallb (fun x => match x with Literal.VStr _ => true | _ => false end) items
  | _ => false
  end.

(** ** Example gateways *)

(** Every call is answered: the n-th call gets the n-th text of [script],
    later calls get [otherwise]. *)
Definition canned (script : list string) (otherwise : string)
  : request -> nat -> result string * nat :=
  fun _ n => (Returns (List.nth n script otherwise), S n).

(** The n-th call gets the n-th text of the script left; once the script is
    used up the gateway is unavailable. *)
Definition scripted : request -> list string -> result string * list string :=
  fun _ w =>
    match w with
    | [] => (Raises (GatewayError "ModelUnavailable"), [])
    | text :: rest => (Returns text, rest)
    end.

Definition fixed_date {World : Type} : World -> string := fun _ => "2025-01-01".

(** A stand-in for [format(score, ".1%")] in examples. *)
Definition ratio_text (q : Q) : string :=
  PyStr.str_of_Z (Qnum q) ++ "/" ++ PyStr.str_of_Z (Zpos (Qden q)).

Definition start {World : Type} (w : World) : state World :=
  {| world := w; log := [] |}.

(** A gateway that answers every call. *)
Definition responds {World : Type}
  (gateway : request -> World -> result string * World) : Prop :=
  forall r w, exists text w', gateway r w = (Returns text, w').

(** ** Example texts *)

(** Three of these four URLs are trusted; the first one occurs twice. *)
Definition finding_3_of_4 : string :=
  "Fusion gain was reported (https://arxiv.org/abs/2401.00001), confirmed in "
  ++ "https://www.nature.com/articles/x1 and again https://arxiv.org/abs/2401.00001 ; "
  ++ "see also [http://example.com/blog].".

(** One trusted URL and one that is not. *)
Definition finding_1_of_2 : string :=
  "Sources: https://arxiv.org/abs/2401.00001 and https://example.com/post".

(** A response whose bracketed text is not a Python literal. *)
Definition response_unquoted : string :=
  "Steps: [define scope, survey literature]".

(** A response with a list of strings followed by further brackets. *)
Definition response_two_lists : string :=
  "Plan: ['define scope', 'survey literature'] (see also ['notes'])".

(** The planner answers with two steps; the first finding cites nothing
    (FAIL), the second cites arxiv.org (PASS). *)
Definition demo_script : list string :=
  [ "['step1', 'step2']";
    "No sources were found.";
    "See https://arxiv.org/abs/2401.00001 for details.";
    "DRAFT"; "CRITIQUE"; "FINAL" ].

Definition demo_gateway : request -> nat -> result string * nat :=
  canned demo_script "none".

(** * Properties *)

(** ** Checks of the models on examples *)

Example findall_demo :
  Re.findall_urls "see (https://arxiv.org/abs/1) and http://x.y/z] http:// https://a"
  = ["https://arxiv.org/abs/1"; "http://x.y/z"; "https://a"].
Proof. reflexivity. Qed.

Example search_demo :
  Re.search_list "Plan: ['a', 'b'] and [more] text" = Some "['a', 'b'] and [more]".
Proof. reflexivity. Qed.

Example literal_eval_strings :
  Literal.literal_eval "['Define scope', 'Survey the literature',  'Summarise']"
  = Returns (Literal.VList [Literal.VStr "Define scope";
                            Literal.VStr "Survey the literature";
                            Literal.VStr "Summarise"]).
Proof. vm_compute. reflexivity. Qed.

(** ** Strings *)

Lemma drop_prefix_app p s : PyStr.drop_prefix p (p ++ s) = Some s.
Proof.
  induction p as [|a p IH]; simpl; [reflexivity|].
  now rewrite Ascii.eqb_refl.
Qed.

Lemma drop_prefix_Some p : forall s r, PyStr.drop_prefix p s = Some r -> s = p ++ r.
Proof.
  induction p as [|a p IH]; simpl; intros s r H.
  - now inversion H.
  - destruct s as [|b s]; [discriminate|].
    destruct (Ascii.eqb_spec a b) as [->|]; [|discriminate].
    now rewrite (IH _ _ H).
Qed.

Lemma string_app_assoc (a b c : string) : (a ++ b) ++ c = a ++ (b ++ c).
Proof. induction a as [|x a IH]; simpl; [reflexivity|now rewrite IH]. Qed.

Lemma string_app_nil_r (a : string) : a ++ EmptyString = a.
Proof. induction a as [|x a IH]; simpl; [reflexivity|now rewrite IH]. Qed.

Lemma contains_unfold needle hay :
  PyStr.contains needle hay
  = PyStr.startswith hay needle
    || match hay with
       | EmptyString => false
       | String _ rest => PyStr.contains needle rest
       end.
Proof. destruct hay; reflexivity. Qed.

(** [in] on strings is substring containment. *)
Lemma contains_spec needle hay :
  PyStr.contains needle hay = true
  <-> exists pre post, hay = pre ++ needle ++ post.
Proof.
  split.
  - induction hay as [|c hay IH]; rewrite contains_unfold; intros H;
      apply orb_true_iff in H as [H|H].
    + unfold PyStr.startswith in H.
      destruct (PyStr.drop_prefix needle EmptyString) as [r|] eqn:E; [|discriminate].
      exists EmptyString, r. simpl. now apply drop_prefix_Some.
    + discriminate.
    + unfold PyStr.startswith in H.
      destruct (PyStr.drop_prefix needle (String c hay)) as [r|] eqn:E; [|discriminate].
      exists EmptyString, r. simpl. now apply drop_prefix_Some.
    + destruct (IH H) as (pre & post & ->).
      now exists (String c pre), post.
  - intros (pre & post & ->).
    induction pre as [|c pre IH]; rewrite contains_unfold; apply orb_true_iff.
    + left. unfold PyStr.startswith. simpl. now rewrite drop_prefix_app.
    + right. exact IH.
Qed.


(** ** The evaluator *)

Lemma Qgtb_spec (x y : Q) : Qgtb x y = true <-> (y < x)%Q.
Proof.
  unfold Qgtb. rewrite negb_true_iff. split; intros H.
  - apply Qnot_le_lt. intros L. apply Qle_bool_iff in L. congruence.
  - destruct (Qle_bool x y) eqn:E; [|reflexivity].
    apply Qle_bool_iff in E. exfalso. exact (Qlt_not_le _ _ H E).
Qed.

Lemma status_pass_iff (score : Q) :
  status_of score = "PASS" <-> (1 # 2 < score)%Q.
Proof.
  unfold status_of. rewrite <- Qgtb_spec.
  destruct (Qgtb score (1 # 2)); split; intros H; try reflexivity; discriminate.
Qed.

Lemma status_fail_iff (score : Q) :
  status_of score = "FAIL (Low Credibility)" <-> (score <= 1 # 2)%Q.
Proof.
  split; intros H.
  - apply Qnot_lt_le. intros L. apply status_pass_iff in L. congruence.
  - unfold status_of. destruct (Qgtb score (1 # 2)) eqn:E; [|reflexivity].
    apply Qgtb_spec in E. exfalso. exact (Qlt_not_le _ _ E H).
Qed.

Lemma truediv_raises_iff (a b : nat) :
  py_truediv a b = Raises ZeroDivisionError <-> b = 0.
Proof. destruct b; simpl; split; intros H; try reflexivity; discriminate. Qed.

Lemma Zpos_of_nat_succ (n : nat) : Zpos (Pos.of_nat (S n)) = Z.of_nat (S n).
Proof. rewrite <- positive_nat_Z. now rewrite Nat2Pos.id. Qed.

(** The score is defined for every pair of lists and is the quotient of
    the lengths; the division is reached only with a non-zero divisor. *)
Lemma score_of_returns (trusted urls : list string) :
  exists score,
    score_of trusted urls = Returns score
    /\ (urls = [] -> score = 0%Q)
    /\ (urls <> [] ->
        py_truediv (List.length trusted) (List.length urls) = Returns score
        /\ (score == inject_Z (Z.of_nat (List.length trusted))
                     / inject_Z (Z.of_nat (List.length urls)))%Q).
Proof.
  destruct urls as [|u urls].
  - exists 0%Q. split; [reflexivity|]. split; [reflexivity|].
    intros H. now elim H.
  - eexists. split; [reflexivity|]. split; [discriminate|].
    intros _. split; [reflexivity|].
    rewrite Qmake_Qdiv. simpl List.length.
    now rewrite Zpos_of_nat_succ.
Qed.

(** In terms of the two counts, PASS means that strictly more than half of
    the URLs are trusted. *)
Lemma score_pass_counts (urls : list string) (score : Q) :
  score_of (trusted_urls urls) urls = Returns score ->
  (status_of score = "PASS"
   <-> List.length urls < 2 * List.length (trusted_urls urls)).
Proof.
  intros H. rewrite status_pass_iff.
  destruct urls as [|u urls].
  - inversion H; subst score. simpl. split; intros L; [discriminate|lia].
  - remember (trusted_urls (u :: urls)) as t eqn:Et.
    unfold score_of, py_truediv in H. cbn [List.length] in H.
    remember (List.length urls) as n eqn:En.
    assert (E : score = (Z.of_nat (List.length t) # Pos.of_nat (S n))%Q) by congruence.
    rewrite E. unfold Qlt. cbn [Qnum Qden List.length].
    rewrite Zpos_of_nat_succ, <- En. lia.
Qed.

Section EvaluatorFacts.
Variable World : Type.
Variable percent1 : Q -> string.

(** The evaluator returns the status of the score and displays one
    verdict. *)
Lemma eval_runs (research_output : string) (st : state World) :
  exists score,
    score_of (trusted_urls (Re.findall_urls research_output))
             (Re.findall_urls research_output) = Returns score
    /\ eval_error_analysis World percent1 research_output st
       = (Returns (status_of score),
          record World
            (Display ShowVerdict
               (verdict_markdown (analysis_of percent1 (status_of score) score)))
            st).
Proof.
  destruct (score_of_returns (trusted_urls (Re.findall_urls research_output))
              (Re.findall_urls research_output)) as (score & E & _).
  exists score. split; [exact E|].
  unfold eval_error_analysis, bind, lift, display, ret. now rewrite E.
Qed.

End EvaluatorFacts.

(** *** URL extraction *)

Lemma span_url_stops body : forall post,
  Re.span_url body = body -> stops post = true ->
  Re.span_url (body ++ post) = body.
Proof.
  induction body as [|c body IH]; intros post Hb Hp.
  - destruct post as [|c post]; [reflexivity|].
    simpl in *. apply negb_true_iff in Hp. now rewrite Hp.
  - simpl in *. destruct (Re.url_char c); [|discriminate].
    f_equal. apply IH; [congruence|exact Hp].
Qed.

Lemma match_scheme_whole scheme u :
  Re.match_scheme scheme u = Some u ->
  exists body, u = scheme ++ body /\ Re.span_url body = body /\ body <> EmptyString.
Proof.
  unfold Re.match_scheme. intros H.
  destruct (PyStr.drop_prefix scheme u) as [body|] eqn:E; [|discriminate].
  apply drop_prefix_Some in E. exists body. split; [exact E|].
  destruct (Re.span_url body) as [|c t] eqn:Es; [discriminate|].
  injection H as H. rewrite E in H.
  assert (String c t = body) as <-.
  { clear -H. induction scheme as [|a s IH]; simpl in H; [exact H|].
    injection H as H. now apply IH. }
  split; [reflexivity|discriminate].
Qed.

Lemma match_scheme_extend scheme body post :
  Re.span_url body = body -> body <> EmptyString -> stops post = true ->
  Re.match_scheme scheme ((scheme ++ body) ++ post) = Some (scheme ++ body).
Proof.
  intros Hs Hne Hp. unfold Re.match_scheme.
  rewrite string_app_assoc, drop_prefix_app, (span_url_stops _ _ Hs Hp).
  destruct body; [now elim Hne|reflexivity].
Qed.

(** A string that the pattern matches as a whole is still matched, and no
    further, when text that stops it follows. *)
Lemma match_url_extend u post :
  Re.match_url u = Some u -> stops post = true ->
  Re.match_url (u ++ post) = Some u.
Proof.
  unfold Re.match_url. intros H Hp.
  destruct (Re.match_scheme "https://" u) as [m|] eqn:E.
  - injection H as ->.
    destruct (match_scheme_whole _ _ E) as (body & -> & Hs & Hne).
    now rewrite (match_scheme_extend _ _ _ Hs Hne Hp).
  - destruct (match_scheme_whole _ _ H) as (body & -> & Hs & Hne).
    rewrite (match_scheme_extend _ _ _ Hs Hne Hp).
    reflexivity.
Qed.

Lemma findall_skip a : forall b,
  Re.findall_from (String.length a) (a ++ b) = Re.findall_from 0 b.
Proof.
  induction a as [|c a IH]; intros b; [reflexivity|exact (IH b)].
Qed.

Lemma findall_cons u post :
  Re.match_url u = Some u -> stops post = true ->
  Re.findall_from 0 (u ++ post) = u :: Re.findall_from 0 post.
Proof.
  intros Hu Hp. pose proof (match_url_extend _ _ Hu Hp) as E.
  destruct u as [|c u]; [discriminate|].
  change (Re.findall_from 0 (String c u ++ post))
    with (match Re.match_url (String c u ++ post) with
          | Some m => m :: Re.findall_from (String.length m - 1) (u ++ post)
          | None => Re.findall_from 0 (u ++ post)
          end).
  rewrite E. f_equal.
  replace (String.length (String c u) - 1) with (String.length u)
    by (simpl; lia).
  apply findall_skip.
Qed.

(** URLs written one after the other with a blank between them are found
    again as they are: same order, duplicates kept. *)
Lemma findall_join (us : list string) :
  Forall (fun u => Re.match_url u = Some u) us ->
  Re.findall_urls (PyStr.join " " us) = us.
Proof.
  unfold Re.findall_urls. induction 1 as [|u us Hu Hus IH]; [reflexivity|].
  destruct us as [|v us].
  - change (PyStr.join " " [u]) with u.
    rewrite <- (string_app_nil_r u) at 1.
    now rewrite (findall_cons u EmptyString Hu eq_refl).
  - change (PyStr.join " " (u :: v :: us))
      with (u ++ String " " (PyStr.join " " (v :: us))).
    rewrite (findall_cons u (String " " (PyStr.join " " (v :: us))) Hu eq_refl).
    f_equal. exact IH.
Qed.

Lemma is_trusted_spec (u : string) :
  is_trusted u = true
  <-> exists dom, In dom preferred_domains /\ substring dom u.
Proof.
  unfold is_trusted. rewrite existsb_exists.
  split; intros (dom & Hin & H); exists dom; (split; [exact Hin|]);
    now apply contains_spec.
Qed.

Lemma trusted_urls_spec (urls : list string) (u : string) :
  In u (trusted_urls urls)
  <-> In u urls /\ exists dom, In dom preferred_domains /\ substring dom u.
Proof.
  unfold trusted_urls. rewrite filter_In. now rewrite is_trusted_spec.
Qed.

Section EvaluatorClaims.
Variable World : Type.
Variable percent1 : Q -> string.

Local Abbreviation eval := (eval_error_analysis World percent1).

(** C2.  The evaluator returns PASS exactly when the score is strictly
    greater than one half.  A score of exactly one half (half of the URLs
    trusted) gives FAIL, a text without URLs has score 0 and gives FAIL;
    a text with one arxiv.org URL and one URL outside the allow-list has
    score one half and gives FAIL. *)
Theorem evaluator_pass_iff_above_half (research_output : string) (st : state World) :
  exists score,
    score_of (trusted_urls (Re.findall_urls research_output))
             (Re.findall_urls research_output) = Returns score
    /\ fst (eval research_output st) = Returns (status_of score)
    /\ (status_of score = "PASS" <-> (1 # 2 < score)%Q)
    /\ (status_of score = "PASS" \/ status_of score = "FAIL (Low Credibility)")
    /\ ((score == 1 # 2)%Q -> status_of score = "FAIL (Low Credibility)")
    /\ (List.length (Re.findall_urls research_output)
        = 2 * List.length (trusted_urls (Re.findall_urls research_output)) ->
        status_of score = "FAIL (Low Credibility)")
    /\ (Re.findall_urls research_output = [] ->
        score = 0%Q /\ status_of score = "FAIL (Low Credibility)")
    /\ (score_of (trusted_urls (Re.findall_urls finding_1_of_2))
                 (Re.findall_urls finding_1_of_2) = Returns (1 # 2)%Q
        /\ fst (eval finding_1_of_2 st) = Returns "FAIL (Low Credibility)").
Proof.
  destruct (eval_runs World percent1 research_output st) as (score & Hs & He).
  exists score. split; [exact Hs|]. split; [now rewrite He|].
  split; [apply status_pass_iff|].
  assert (Hor : status_of score = "PASS" \/ status_of score = "FAIL (Low Credibility)").
  { unfold status_of. destruct (Qgtb score (1 # 2)); [now left|now right]. }
  split; [exact Hor|].
  split.
  { intros E. apply status_fail_iff. rewrite E. apply Qle_refl. }
  split.
  { intros E. destruct Hor as [P|F]; [|exact F].
    apply (score_pass_counts _ _ Hs) in P. lia. }
  split.
  { intros E. rewrite E in Hs. injection Hs as <-. now split. }
  split; reflexivity.
Qed.

(** C6.  The evaluator scores the URLs it extracts: the trusted ones are
    those containing one of the five domains as a substring, kept in
    order with their duplicates; the score is their number divided by the
    number of URLs, and 0 when there is none.  URLs separated by blanks
    are extracted as they are.  With three trusted URLs out of four the
    score is 3/4 and the status PASS.  A domain anywhere in the URL
    counts, not only as its host. *)
Theorem evaluator_score_is_trusted_ratio (research_output : string) (st : state World) :
  exists score,
    score_of (trusted_urls (Re.findall_urls research_output))
             (Re.findall_urls research_output) = Returns score
    /\ fst (eval research_output st) = Returns (status_of score)
    /\ trusted_urls (Re.findall_urls research_output)
       = filter is_trusted (Re.findall_urls research_output)
    /\ (forall u, is_trusted u = true
                  <-> exists dom,
                        In dom ["arxiv.org"; "nature.com"; "nasa.gov";
                                "science.org"; "mit.edu"]
                        /\ substring dom u)
    /\ (Re.findall_urls research_output = [] -> score = 0%Q)
    /\ (Re.findall_urls research_output <> [] ->
        (score == inject_Z (Z.of_nat (List.length
                              (trusted_urls (Re.findall_urls research_output))))
                  / inject_Z (Z.of_nat (List.length
                              (Re.findall_urls research_output))))%Q)
    /\ (forall us, Forall (fun u => Re.match_url u = Some u) us ->
                   Re.findall_urls (PyStr.join " " us) = us)
    /\ (Re.findall_urls finding_3_of_4
        = ["https://arxiv.org/abs/2401.00001"; "https://www.nature.com/articles/x1";
           "https://arxiv.org/abs/2401.00001"; "http://example.com/blog"]
        /\ score_of (trusted_urls (Re.findall_urls finding_3_of_4))
                    (Re.findall_urls finding_3_of_4) = Returns (3 # 4)%Q
        /\ fst (eval finding_3_of_4 st) = Returns "PASS")
    /\ is_trusted "http://example.com/?ref=mit.edu" = true.
Proof.
  destruct (eval_runs World percent1 research_output st) as (score & Hs & He).
  destruct (score_of_returns (trusted_urls (Re.findall_urls research_output))
              (Re.findall_urls research_output)) as (score' & Hs' & H0 & Hn).
  assert (score' = score) as -> by congruence.
  exists score. split; [exact Hs|]. split; [now rewrite He|].
  split; [reflexivity|]. split; [exact is_trusted_spec|].
  split; [exact H0|]. split; [intros Hne; exact (proj2 (Hn Hne))|].
  split; [exact findall_join|].
  repeat split.
Qed.

(** C10.  The evaluator is total: for every text, the empty one included,
    it returns a status and raises nothing.  The division is reached only
    with a non-empty URL list, where it cannot fail; without URLs the
    score is 0 and no division takes place. *)
Theorem evaluator_total (research_output : string) (st : state World) :
  (exists status st', eval research_output st = (Returns status, st'))
  /\ (exists score,
        score_of (trusted_urls (Re.findall_urls research_output))
                 (Re.findall_urls research_output) = Returns score)
  /\ (forall a b, py_truediv a b = Raises ZeroDivisionError <-> b = 0)
  /\ (forall trusted, score_of trusted [] = Returns 0%Q)
  /\ (forall trusted u urls,
        score_of trusted (u :: urls)
        = py_truediv (List.length trusted) (List.length (u :: urls))
        /\ List.length (u :: urls) <> 0)
  /\ fst (eval EmptyString st) = Returns "FAIL (Low Credibility)".
Proof.
  destruct (eval_runs World percent1 research_output st) as (score & Hs & He).
  split; [eauto|]. split; [eauto|].
  split; [exact truediv_raises_iff|].
  split; [reflexivity|].
  split; [|reflexivity].
  intros trusted u urls. split; [reflexivity|discriminate].
Qed.

End EvaluatorClaims.

(** ** The orchestrator and the reflection loop *)

Lemma displayed_app s (l1 l2 : list event) :
  displayed s (l1 ++ l2) = (displayed s l1 ++ displayed s l2)%list.
Proof. apply flat_map_app. Qed.

Lemma invoked_app (l1 l2 : list event) :
  invoked (l1 ++ l2) = (invoked l1 ++ invoked l2)%list.
Proof. apply flat_map_app. Qed.

Section OrchestratorFacts.
Variable World : Type.
Variable gateway : request -> World -> result string * World.
Variable today : World -> string.
Variable percent1 : Q -> string.

Local Abbreviation St := (state World).

Lemma invoke_run (r : request) (st : St) text w' :
  gateway r (world st) = (Returns text, w') ->
  invoke World gateway r st
  = (Returns text, {| world := w'; log := (log st ++ [Invoke r])%list |}).
Proof. intros H. unfold invoke. now rewrite H. Qed.

Lemma eval_run (finding : string) (st : St) :
  eval_error_analysis World percent1 finding st
  = (Returns (verdict_status finding),
     record World (Display ShowVerdict ((verdict_text percent1) finding)) st).
Proof.
  destruct (eval_runs World percent1 finding st) as (score & Hs & He).
  rewrite He. unfold verdict_text, verdict_status, score_value.
  now rewrite Hs.
Qed.

Lemma research_loop_cons step rest acc (st : St) finding w' :
  gateway (research_request (today (world st)) step) (world st)
  = (Returns finding, w') ->
  research_loop World gateway today percent1 (step :: rest) acc st
  = research_loop World gateway today percent1 rest
      (acc ++ finding_entry step finding)
      {| world := w';
         log := (log st ++ (step_events percent1) (step, (today (world st), finding)))%list |}.
Proof.
  intros H. cbn [research_loop].
  unfold bind at 1. unfold tools_usage_agent, current_date, bind at 1.
  rewrite (invoke_run _ _ _ _ H).
  unfold bind at 1. rewrite eval_run.
  unfold record. cbn [world log step_events].
  now rewrite <- app_assoc.
Qed.

(** The loop visits every step once, in plan order, whatever the
    verdicts are. *)
Lemma research_loop_run (Hresp : responds gateway) (steps : list Literal.value) :
  forall (acc : string) (st : St),
  exists (entries : list (Literal.value * (string * string))) (st' : St),
    List.map fst entries = steps
    /\ research_loop World gateway today percent1 steps acc st
       = (Returns (acc ++ corpus (findings_of entries)), st')
    /\ log st' = (log st ++ flat_map (step_events percent1) entries)%list.
Proof.
  induction steps as [|step rest IH]; intros acc st.
  - exists [], st. cbn. rewrite string_app_nil_r, app_nil_r. auto.
  - destruct (Hresp (research_request (today (world st)) step) (world st))
      as (finding & w' & Hg).
    rewrite (research_loop_cons _ _ _ _ _ _ Hg).
    destruct (IH (acc ++ finding_entry step finding)
                {| world := w';
                   log := (log st ++ (step_events percent1) (step, (today (world st), finding)))%list |})
      as (entries & st' & Hm & Hrun & Hlog).
    exists ((step, (today (world st), finding)) :: entries), st'.
    cbn [List.map findings_of corpus flat_map fst snd].
    rewrite Hm, Hrun, Hlog. cbn [log].
    fold (findings_of entries).
    rewrite string_app_assoc, <- app_assoc. auto.
Qed.





Lemma planning_run topic (st : St) content w1 plan steps :
  gateway (planner_request topic) (world st) = (Returns content, w1) ->
  decode_plan topic content = Returns plan ->
  Literal.py_iter plan = Returns steps ->
  planning_agent World gateway topic st
  = (Returns plan,
     {| world := w1;
        log := (log st ++ [ Invoke (planner_request topic);
                            Display ShowPlan (plan_summary steps) ])%list |}).
Proof.
  intros H1 H2 H3. unfold planning_agent.
  unfold bind at 1. rewrite (invoke_run _ _ _ _ H1).
  unfold bind at 1. unfold lift at 1. rewrite H2.
  unfold bind at 1. unfold lift at 1. rewrite H3.
  unfold bind at 1. unfold display, record, ret. cbn [world log].
  now rewrite <- app_assoc.
Qed.

End OrchestratorFacts.

(** ** The planner's decoder *)

Module LiteralFacts.
Import PyStr Literal.

Section ExprInd.
Variable P : expr -> Prop.
Hypothesis HConstant : forall c, P (Constant c).
Hypothesis HName : forall id, P (Name id).
Hypothesis HTuple : forall elts, Forall P elts -> P (PyTuple elts).
Hypothesis HList : forall elts, Forall P elts -> P (PyList elts).
Hypothesis HCall : forall f args, P f -> Forall P args -> P (Call f args).
Hypothesis HSubscript : forall v i, P v -> P i -> P (Subscript v i).

Fixpoint expr_nested_ind (e : expr) : P e :=
  let all := fix all (l : list expr) : Forall P l :=
               match l with
               | [] => Forall_nil P
               | x :: r => Forall_cons x (expr_nested_ind x) (all r)
               end in
  match e with
  | Constant c => HConstant c
  | Name id => HName id
  | PyTuple elts => HTuple elts (all elts)
  | PyList elts => HList elts (all elts)
  | Call f args => HCall f args (expr_nested_ind f) (all args)
  | Subscript v i => HSubscript v i (expr_nested_ind v) (expr_nested_ind i)
  end.
End ExprInd.

Lemma convert_tuple elts :
  _convert (PyTuple elts)
  = rbind (rmap_list _convert elts) (fun vs => Returns (VTuple vs)).
Proof.
  cbn [_convert]. f_equal.
  induction elts as [|e l IH]; [reflexivity|].
  cbn [rmap_list]. now rewrite IH.
Qed.

Lemma convert_list elts :
  _convert (PyList elts)
  = rbind (rmap_list _convert elts) (fun vs => Returns (VList vs)).
Proof.
  cbn [_convert]. f_equal.
  induction elts as [|e l IH]; [reflexivity|].
  cbn [rmap_list]. now rewrite IH.
Qed.

Lemma rmap_list_length {A B} (f : A -> result B) (l : list A) (r : list B) :
  rmap_list f l = Returns r -> List.length r = List.length l.
Proof.
  revert r. induction l as [|x l IH]; intros r H; cbn in H.
  - now inversion H.
  - destruct (f x); try discriminate. cbn in H.
    destruct (rmap_list f l) as [ys| |]; try discriminate.
    cbn in H. inversion H. cbn. now rewrite (IH ys).
Qed.

(** Over the nodes of the fragment, [_convert] returns or raises
    [ValueError]; it returns exactly on the literal nodes. *)
Lemma convert_cases (e : expr) :
  (literal_node e = true /\ exists v, _convert e = Returns v)
  \/ (literal_node e = false /\ _convert e = Raises ValueError).
Proof.
  induction e as [c|id|elts IH|elts IH|f args IHf IHargs|v i IHv IHi]
    using expr_nested_ind.
  - left. split; [reflexivity|]. now eexists.
  - right. now split.
  - rewrite convert_tuple. cbn [literal_node].
    induction IH as [|e l He Hl IHl]; [left; split; [reflexivity|now eexists]|].
    cbn [forallb rmap_list].
    destruct He as [[-> [v ->]]|[-> ->]]; [|right; now split].
    cbn [andb rbind].
    destruct IHl as [[-> [w Hw]]|[-> Hw]].
    + left. split; [reflexivity|].
      destruct (rmap_list _convert l); try discriminate. now eexists.
    + right. split; [reflexivity|].
      destruct (rmap_list _convert l); try discriminate; exact Hw.
  - rewrite convert_list. cbn [literal_node].
    induction IH as [|e l He Hl IHl]; [left; split; [reflexivity|now eexists]|].
    cbn [forallb rmap_list].
    destruct He as [[-> [v ->]]|[-> ->]]; [|right; now split].
    cbn [andb rbind].
    destruct IHl as [[-> [w Hw]]|[-> Hw]].
    + left. split; [reflexivity|].
      destruct (rmap_list _convert l); try discriminate. now eexists.
    + right. split; [reflexivity|].
      destruct (rmap_list _convert l); try discriminate; exact Hw.
  - destruct f; try (right; now split).
    destruct args; [|right; now split].
    cbn. destruct (String.eqb id "set"); [left|right]; split; try reflexivity.
    now eexists.
  - right. now split.
Qed.

Lemma convert_returns_iff (e : expr) :
  literal_node e = true <-> exists v, _convert e = Returns v.
Proof.
  destruct (convert_cases e) as [[H1 H2]|[H1 H2]]; split; intros H; auto.
  - congruence.
  - destruct H as [v H]. congruence.
Qed.

Lemma convert_rejects (e : expr) :
  literal_node e = false -> _convert e = Raises ValueError.
Proof.
  destruct (convert_cases e) as [[H1 H2]|[H1 H2]]; intros H; congruence.
Qed.

End LiteralFacts.

Module PlannerFacts.
Import PyStr Literal LiteralFacts.

(** *** The regular expression of the planner *)

Lemma upto_last_close_spec s : forall p,
  Re.upto_last_close s = Some p ->
  exists mid post,
    p = mid ++ "]" /\ s = p ++ post /\ Re.upto_last_close post = None.
Proof.
  induction s as [|c s IH]; intros p H; [discriminate|].
  cbn [Re.upto_last_close] in H.
  destruct (Re.upto_last_close s) as [q|] eqn:E.
  - injection H as <-. destruct (IH q eq_refl) as (mid & post & -> & -> & Hn).
    exists (String c mid), post. auto.
  - destruct (Ascii.eqb_spec c "]") as [->|]; [|discriminate].
    injection H as <-. exists EmptyString, s. auto.
Qed.

(** No "]" at all. *)
Lemma upto_last_close_None s :
  Re.upto_last_close s = None <-> Literal.has_char "]" s = false.
Proof.
  unfold has_char. induction s as [|c s IH]; [now split|].
  cbn [Re.upto_last_close chars existsb].
  rewrite (Ascii.eqb_sym "]" c).
  destruct (Re.upto_last_close s) as [q|].
  - split; [discriminate|]. intros H. apply orb_false_iff in H as [_ H].
    apply IH in H. discriminate.
  - destruct (Ascii.eqb c "]"); [now split|].
    cbn. split; intros _; [now apply IH|reflexivity].
Qed.

(** The match starts at the first "[" that has a "]" after it and runs
    up to the last "]" of the text. *)
Lemma search_list_spec s : forall g,
  Re.search_list s = Some g ->
  exists pre mid post,
    s = pre ++ g ++ post
    /\ g = String "[" (mid ++ "]")
    /\ Literal.has_char "]" post = false.
Proof.
  induction s as [|c s IH]; intros g H; [discriminate|].
  cbn [Re.search_list] in H.
  destruct (Ascii.eqb_spec c "[") as [->|].
  - destruct (Re.upto_last_close s) as [p|] eqn:E.
    + injection H as <-.
      destruct (upto_last_close_spec _ _ E) as (mid & post & -> & -> & Hn).
      exists EmptyString, mid, post. repeat split.
      now apply upto_last_close_None.
    + destruct (IH g H) as (pre & mid & post & -> & -> & Hn).
      exists (String "[" pre), mid, post. auto.
  - destruct (IH g H) as (pre & mid & post & -> & -> & Hn).
    exists (String c pre), mid, post. auto.
Qed.

Lemma search_list_open s g :
  Re.search_list s = Some g -> exists g', g = String "[" g'.
Proof.
  intros H. destruct (search_list_spec _ _ H) as (_ & mid & _ & _ & -> & _).
  now eexists.
Qed.

(** *** The parser on a text that opens with a bracket *)

Lemma parse_primary_eq fuel ts :
  parse_primary (S fuel) ts
  = match ts with
    | TName x :: r => parse_trailers fuel (Name x) r
    | TConst c :: r => parse_trailers fuel (Constant c) r
    | TInt n :: r => parse_trailers fuel (Constant (CInt n)) r
    | TStr s :: r =>
        let '(s', r') := collect_strings s r in
        parse_trailers fuel (Constant (CStr s')) r'
    | TLPar :: r =>
        rbind (parse_items fuel ClosePar r)
              (fun '(es, comma, r') =>
                 parse_trailers fuel (paren_expr es comma) r')
    | TLBrack :: r =>
        rbind (parse_items fuel CloseBrack r)
              (fun '(es, _, r') => parse_trailers fuel (PyList es) r')
    | _ => Raises SyntaxError
    end.
Proof. reflexivity. Qed.

Lemma parse_trailers_eq fuel e ts :
  parse_trailers (S fuel) e ts
  = match ts with
    | TLPar :: r =>
        rbind (parse_items fuel ClosePar r)
              (fun '(es, _, r') => parse_trailers fuel (Call e es) r')
    | TLBrack :: r =>
        rbind (parse_items fuel CloseBrack r)
              (fun '(es, comma, r') =>
                 match subscript_index es comma with
                 | Some i => parse_trailers fuel (Subscript e i) r'
                 | None => Raises SyntaxError
                 end)
    | _ => Returns (e, ts)
    end.
Proof. reflexivity. Qed.

Lemma parse_items_eq fuel k ts :
  parse_items (S fuel) k ts
  = match at_close k ts with
    | Some r => Returns ([], false, r)
    | None =>
        rbind (parse_primary fuel ts)
              (fun '(e, r) =>
                 match r with
                 | TComma :: r1 =>
                     match at_close k r1 with
                     | Some r2 => Returns ([e], true, r2)
                     | None =>
                         rbind (parse_items fuel k r1)
                               (fun '(es, _, r2) => Returns (e :: es, true, r2))
                     end
                 | _ =>
                     match at_close k r with
                     | Some r1 => Returns ([e], false, r1)
                     | None => Raises SyntaxError
                     end
                 end)
    end.
Proof. reflexivity. Qed.

(** Trailers on anything but a name give a node that [_convert]
    rejects. *)
Lemma parse_trailers_convert fuel : forall e ts e' r,
  is_name e = false ->
  parse_trailers fuel e ts = Returns (e', r) ->
  e' = e \/ _convert e' = Raises ValueError.
Proof.
  induction fuel as [|fuel IH]; intros e ts e' r Hn H; [discriminate|].
  rewrite parse_trailers_eq in H.
  destruct ts as [|t ts]; [injection H as <- <-; now left|].
  destruct t; try (injection H as <- <-; now left).
  - (* subscript *)
    destruct (parse_items fuel CloseBrack ts) as [[[es comma] r']| |];
      try discriminate.
    cbn [rbind] in H.
    destruct (subscript_index es comma) as [i|]; [|discriminate].
    right. destruct (IH (Subscript e i) _ _ _ eq_refl H) as [->|E]; [reflexivity|exact E].
  - (* call *)
    destruct (parse_items fuel ClosePar ts) as [[[es comma] r']| |];
      try discriminate.
    cbn [rbind] in H.
    right. destruct (IH (Call e es) _ _ _ eq_refl H) as [->|E]; [|exact E].
    destruct e; try reflexivity. discriminate.
Qed.

Lemma convert_tuple_nonempty e es v :
  _convert (PyTuple (e :: es)) = Returns v ->
  exists x items, v = VTuple (x :: items).
Proof.
  rewrite convert_tuple. cbn [rmap_list].
  destruct (_convert e) as [x| |]; try discriminate. cbn [rbind].
  destruct (rmap_list _convert es) as [xs| |]; try discriminate.
  cbn [rbind]. intros H. injection H as <-. now eexists _, _.
Qed.

Lemma convert_list_shape es v :
  _convert (PyList es) = Returns v -> exists items, v = VList items.
Proof.
  rewrite convert_list.
  destruct (rmap_list _convert es) as [xs| |]; try discriminate.
  cbn [rbind]. intros H. injection H as <-. now eexists.
Qed.

(** What a token list that opens with a bracket decodes to: a list, or a
    tuple with at least one item. *)
Lemma parse_open_shape ts e v :
  parse_tokens (TLBrack :: ts) = Returns e ->
  _convert e = Returns v ->
  (exists items, v = VList items) \/ (exists x items, v = VTuple (x :: items)).
Proof.
  unfold parse_tokens. intros H Hv.
  remember (3 * List.length (TLBrack :: ts) + 3) as fuel eqn:Ef.
  destruct fuel as [|fuel]; [discriminate|].
  rewrite parse_items_eq in H. cbn [at_close] in H.
  destruct fuel as [|fuel]; [discriminate|].
  rewrite parse_primary_eq in H.
  destruct (parse_items fuel CloseBrack ts) as [[[es c] r']| |]; try discriminate.
  cbn [rbind] in H.
  destruct (parse_trailers fuel (PyList es) r') as [[e0 r]| |] eqn:Et;
    try discriminate.
  cbn [rbind] in H.
  assert (Hsingle : e = e0 ->
            (exists items, v = VList items)
            \/ (exists x items, v = VTuple (x :: items))).
  { intros ->. destruct (parse_trailers_convert _ (PyList es) _ _ _ eq_refl Et) as [->|E].
    - left. eapply convert_list_shape; eauto.
    - congruence. }
  destruct r as [|t r].
  - cbn [at_close rbind] in H. injection H as <-. now apply Hsingle.
  - destruct t; try discriminate.
    destruct r as [|t r].
    + cbn in H. injection H as <-. right.
      eapply convert_tuple_nonempty; eauto.
    + destruct (parse_items (S fuel) CloseEnd (t :: r)) as [[[es' c'] r2]| |];
        try discriminate.
      cbn in H. destruct es'; injection H as <-; right;
        eapply convert_tuple_nonempty; eauto.
Qed.

Lemma tokenize_open g ts :
  tokenize (String "[" g) = Returns ts -> exists ts', ts = TLBrack :: ts'.
Proof.
  unfold tokenize. cbn [lex].
  change (step Default 0 "[") with (Some ([TLBrack], Default, 1)).
  cbv iota beta.
  destruct (lex Default 1 g) as [more| |]; try discriminate.
  cbn [rbind app]. intros H. injection H as <-. now eexists.
Qed.

Lemma literal_eval_open_shape g v :
  literal_eval (String "[" g) = Returns v ->
  (exists items, v = VList items) \/ (exists x items, v = VTuple (x :: items)).
Proof.
  unfold literal_eval, ast_parse.
  change (lstrip_blank (String "[" g)) with (String "[" g).
  destruct (tokenize (String "[" g)) as [ts| |] eqn:Et; try discriminate.
  destruct (tokenize_open _ _ Et) as [ts' ->]. cbn [rbind].
  destruct (parse_tokens (TLBrack :: ts')) as [e| |] eqn:Ep; try discriminate.
  cbn [rbind]. unfold check_depth.
  destruct (max_depth <? expr_depth e); [discriminate|].
  cbn [rbind]. now apply parse_open_shape with (ts := ts').
Qed.

(** A decoded plan is a list, or a tuple with at least one item. *)
Lemma decode_plan_shape topic content plan :
  decode_plan topic content = Returns plan ->
  (exists items, plan = VList items)
  \/ (exists x items, plan = VTuple (x :: items)).
Proof.
  unfold decode_plan.
  destruct (Re.search_list content) as [g|] eqn:E.
  - destruct (search_list_open _ _ E) as [g' ->].
    apply literal_eval_open_shape.
  - intros H. injection H as <-. left. now eexists.
Qed.


(** Without a bracketed span the plan is the topic alone. *)
Lemma decode_plan_fallback topic content :
  Re.search_list content = None ->
  decode_plan topic content = Returns (VList [VStr topic]).
Proof. unfold decode_plan. now intros ->. Qed.

End PlannerFacts.

(** *** A single well-formed list of strings is decoded as it is *)

Module RoundTrip.
Import PyStr Literal Render LiteralFacts PlannerFacts.

Lemma rbind_ret {A} (r : result A) : rbind r (fun x => Returns x) = r.
Proof. now destruct r. Qed.

Lemma lex_cons m d c rest :
  lex m d (String c rest)
  = match step m d c with
    | Some (ts, m', d') =>
        rbind (lex m' d' rest) (fun more => Returns (ts ++ more)%list)
    | None => Unmodelled
    end.
Proof. reflexivity. Qed.

Lemma rev_string_twice s : forall a b,
  rev_string a (rev_string b s) = rev_string (s ++ a) b.
Proof.
  induction s as [|c s IH]; intros a b; [reflexivity|].
  cbn [rev_string]. now rewrite IH.
Qed.

Lemma rev_string_involutive s :
  rev_string EmptyString (rev_string EmptyString s) = s.
Proof. rewrite rev_string_twice. cbn. apply string_app_nil_r. Qed.

Lemma step_str_plain q acc d c :
  plain_char q c = true ->
  step_str q acc d c = Some ([], InStr q (String c acc), d).
Proof.
  unfold plain_char, step_str. rewrite negb_true_iff. intros H.
  repeat (apply orb_false_iff in H as [H ?]).
  rewrite H.
  destruct (Ascii.eqb c backslash); [discriminate|].
  destruct (Ascii.eqb c LF); [discriminate|].
  destruct (Ascii.eqb c CR); [discriminate|].
  destruct (Ascii.eqb c zero); [discriminate|].
  reflexivity.
Qed.

(** Inside a string: the plain characters are collected up to the
    closing quote. *)
Lemma lex_in_str q s : forall acc d rest,
  plain q s = true ->
  lex (InStr q acc) d (s ++ String q rest)
  = rbind (lex Default d rest)
          (fun more => Returns (TStr (rev_string EmptyString (rev_string acc s)) :: more)).
Proof.
  induction s as [|c s IH]; intros acc d rest Hp.
  - cbn [append]. rewrite lex_cons. cbn [step]. unfold step_str.
    now rewrite Ascii.eqb_refl.
  - cbn [plain chars forallb] in Hp. apply andb_true_iff in Hp as [Hc Hs].
    cbn [append]. rewrite lex_cons. cbn [step].
    rewrite (step_str_plain _ _ _ _ Hc).
    rewrite (IH _ _ _ Hs). cbn [app rev_string].
    apply rbind_ret.
Qed.

Lemma step_default_quote q d :
  is_quote q -> step_default d q = Some ([], StrOpen q, d).
Proof. intros [->| ->]; reflexivity. Qed.

(** A quoted plain string before a comma or a closing bracket is one
    string token. *)
Lemma lex_quoted q s d c rest :
  is_quote q -> plain q s = true -> c = ","%char \/ c = "]"%char ->
  lex Default d (quoted q s ++ String c rest)
  = rbind (lex Default d (String c rest))
          (fun more => Returns (TStr s :: more)).
Proof.
  intros Hq Hp Hc. unfold quoted. cbn [append].
  rewrite lex_cons. cbn [step]. rewrite (step_default_quote _ _ Hq).
  rewrite string_app_assoc. cbn [append].
  destruct s as [|a s].
  - cbn [append]. rewrite lex_cons. cbn [step]. rewrite Ascii.eqb_refl.
    rewrite lex_cons. cbn [step].
    assert (Hne : Ascii.eqb c q = false).
    { destruct Hq as [->| ->], Hc as [->| ->]; reflexivity. }
    rewrite Hne. rewrite (lex_cons Default d c rest). cbn [step].
    unfold emit_then.
    destruct Hc as [->| ->].
    + change (step_default d ",") with (Some ([TComma], Default, d)).
      cbv iota beta. destruct (lex Default d rest); reflexivity.
    + change (step_default d "]") with (Some ([TRBrack], Default, Nat.pred d)).
      cbv iota beta. destruct (lex Default (Nat.pred d) rest); reflexivity.
  - cbn [plain chars forallb] in Hp. apply andb_true_iff in Hp as [Ha Hs].
    cbn [append]. rewrite lex_cons. cbn [step].
    assert (Hne : Ascii.eqb a q = false).
    { unfold plain_char in Ha. rewrite negb_true_iff in Ha.
      now repeat (apply orb_false_iff in Ha as [Ha ?]). }
    rewrite Hne, (step_str_plain _ _ _ _ Ha).
    rewrite (lex_in_str q s _ _ _ Hs).
    cbn [rev_string].
    change (rev_string (String a EmptyString) s)
      with (rev_string EmptyString (String a s)).
    rewrite rev_string_involutive.
    destruct (lex Default d (String c rest)); reflexivity.
Qed.

(** The items of a rendered list, read at nesting depth 1. *)
Lemma lex_items q (strs : list string) :
  is_quote q -> Forall (fun s => plain q s = true) strs ->
  lex Default 1 (join ", " (List.map (quoted q) strs) ++ "]")
  = Returns (item_tokens strs ++ [TRBrack])%list.
Proof.
  intros Hq. induction 1 as [|s strs Hs Hrest IH]; [reflexivity|].
  destruct strs as [|s' strs].
  - cbn [List.map join item_tokens].
    rewrite (lex_quoted q s 1 "]" EmptyString Hq Hs (or_intror eq_refl)).
    reflexivity.
  - change (join ", " (List.map (quoted q) (s :: s' :: strs)) ++ "]")
      with ((quoted q s ++ ", " ++ join ", " (List.map (quoted q) (s' :: strs))) ++ "]").
    rewrite string_app_assoc.
    change ((", " ++ join ", " (List.map (quoted q) (s' :: strs))) ++ "]")
      with (String "," (String " " (join ", " (List.map (quoted q) (s' :: strs)) ++ "]"))).
    rewrite (lex_quoted q s 1 "," _ Hq Hs (or_introl eq_refl)).
    rewrite lex_cons.
    change (step Default 1 ",") with (Some ([TComma], Default, 1)).
    cbv iota beta. rewrite lex_cons.
    change (step Default 1 " ") with (Some (@nil token, Default, 1)).
    cbv iota beta. rewrite IH. reflexivity.
Qed.

Lemma tokenize_render q (strs : list string) :
  is_quote q -> Forall (fun s => plain q s = true) strs ->
  tokenize (render q strs)
  = Returns (TLBrack :: item_tokens strs ++ [TRBrack])%list.
Proof.
  intros Hq Hp. unfold tokenize, render. cbn [append]. rewrite lex_cons.
  change (step Default 0 "[") with (Some ([TLBrack], Default, 1)).
  cbv iota beta. now rewrite (lex_items q strs Hq Hp).
Qed.

(** The items of a rendered list parse to string constants whenever
    the fuel covers them. *)
Lemma parse_rendered_items (strs : list string) : forall fuel rest,
  List.length strs + 2 <= fuel ->
  exists comma,
    parse_items fuel CloseBrack (item_tokens strs ++ TRBrack :: rest)
    = Returns (string_nodes strs, comma, rest).
Proof.
  induction strs as [|s strs IH]; intros fuel rest Hf.
  - destruct fuel as [|fuel]; [cbn in Hf; lia|]. now exists false.
  - destruct fuel as [|[|[|fuel]]]; try (cbn in Hf; lia).
    destruct strs as [|s' strs].
    + exists false. reflexivity.
    + destruct (IH (S (S fuel)) rest) as [comma E]; [cbn in *; lia|].
      exists true.
      change (item_tokens (s :: s' :: strs) ++ TRBrack :: rest)%list
        with (TStr s :: TComma :: (item_tokens (s' :: strs) ++ TRBrack :: rest))%list.
      rewrite parse_items_eq.
      change (at_close CloseBrack (TStr s :: ?x)) with (@None (list token)).
      cbv iota. rewrite parse_primary_eq. cbn [collect_strings].
      rewrite parse_trailers_eq. cbn [rbind].
      assert (Hc : at_close CloseBrack (item_tokens (s' :: strs) ++ TRBrack :: rest) = None).
      { destruct strs; reflexivity. }
      rewrite Hc, E. reflexivity.
Qed.

Lemma item_tokens_length (strs : list string) :
  List.length (item_tokens strs) <= 2 * List.length strs.
Proof.
  induction strs as [|s [|s' strs] IH]; cbn [item_tokens List.length] in *; lia.
Qed.

Lemma item_tokens_length_ge (strs : list string) :
  List.length strs <= List.length (item_tokens strs).
Proof.
  induction strs as [|s [|s' strs] IH]; cbn [item_tokens List.length] in *; lia.
Qed.

Lemma parse_rendered (strs : list string) :
  parse_tokens (TLBrack :: item_tokens strs ++ [TRBrack])
  = Returns (PyList (string_nodes strs)).
Proof.
  unfold parse_tokens.
  remember (3 * List.length (TLBrack :: item_tokens strs ++ [TRBrack]) + 3)
    as fuel eqn:Ef.
  assert (Hf : List.length strs + 5 <= fuel).
  { subst fuel. cbn [List.length]. rewrite length_app. cbn [List.length].
    pose proof (item_tokens_length_ge strs). lia. }
  destruct fuel as [|[|fuel]]; try lia.
  rewrite parse_items_eq. cbn [at_close].
  rewrite parse_primary_eq.
  destruct (parse_rendered_items strs fuel [] ltac:(lia)) as [comma E].
  rewrite E. cbn [rbind].
  destruct fuel as [|fuel]; [lia|].
  rewrite parse_trailers_eq. reflexivity.
Qed.

Lemma convert_string_nodes (strs : list string) :
  rmap_list _convert (string_nodes strs) = Returns (List.map VStr strs).
Proof.
  induction strs as [|s strs IH]; [reflexivity|].
  cbn [string_nodes List.map rmap_list _convert constant_value rbind].
  fold (string_nodes strs). now rewrite IH.
Qed.

Lemma rendered_depth (strs : list string) :
  expr_depth (PyList (string_nodes strs)) <= max_depth.
Proof.
  assert (H : fold_right (fun x m => Nat.max (expr_depth x) m) 0 (string_nodes strs) <= 1).
  { induction strs as [|s strs IH]; cbn [string_nodes List.map fold_right expr_depth];
      [lia|]. fold (string_nodes strs). lia. }
  cbn [expr_depth]. unfold max_depth. lia.
Qed.

Lemma literal_eval_render q (strs : list string) :
  is_quote q -> Forall (fun s => plain q s = true) strs ->
  literal_eval (render q strs) = Returns (VList (List.map VStr strs)).
Proof.
  intros Hq Hp. unfold literal_eval, ast_parse.
  change (lstrip_blank (render q strs)) with (render q strs).
  rewrite (tokenize_render q strs Hq Hp). cbn [rbind].
  rewrite parse_rendered. cbn [rbind]. unfold check_depth.
  rewrite (proj2 (Nat.ltb_ge _ _) (rendered_depth strs)). cbn [rbind].
  rewrite convert_list, convert_string_nodes. reflexivity.
Qed.

Lemma upto_last_close_app a : forall post,
  has_char "]" post = false ->
  Re.upto_last_close (a ++ String "]" post) = Some (a ++ "]").
Proof.
  induction a as [|c a IH]; intros post Hp.
  - cbn [append Re.upto_last_close].
    apply upto_last_close_None in Hp. now rewrite Hp.
  - cbn [append Re.upto_last_close]. now rewrite (IH _ Hp).
Qed.

(** The span found when the text has one bracketed part: no "[" before
    it and no "]" after it. *)
Lemma search_list_single pre : forall body post,
  has_char "[" pre = false -> has_char "]" post = false ->
  Re.search_list (pre ++ String "[" (body ++ String "]" post))
  = Some (String "[" (body ++ "]")).
Proof.
  induction pre as [|c pre IH]; intros body post Hpre Hpost.
  - cbn [append Re.search_list]. rewrite Ascii.eqb_refl.
    now rewrite (upto_last_close_app _ _ Hpost).
  - unfold has_char in Hpre. cbn [chars existsb] in Hpre.
    apply orb_false_iff in Hpre as [Hc Hpre].
    cbn [append Re.search_list]. rewrite Ascii.eqb_sym, Hc.
    now apply IH.
Qed.

(** When the only bracketed part of the response is a list literal of
    plain strings, the plan is exactly these strings, in order. *)
Lemma decode_plan_single_list topic q (strs : list string) pre post :
  is_quote q -> Forall (fun s => plain q s = true) strs ->
  has_char "[" pre = false -> has_char "]" post = false ->
  decode_plan topic (pre ++ render q strs ++ post)
  = Returns (VList (List.map VStr strs)).
Proof.
  intros Hq Hp Hpre Hpost. unfold decode_plan.
  assert (E : pre ++ render q strs ++ post
              = pre ++ String "[" (join ", " (List.map (quoted q) strs)
                                     ++ String "]" post)).
  { unfold render. cbn [append]. now rewrite string_app_assoc. }
  rewrite E, (search_list_single _ _ _ Hpre Hpost).
  exact (literal_eval_render q strs Hq Hp).
Qed.

End RoundTrip.

Example decode_plan_single_list_demo :
  decode_plan "fusion"
    ("Here is the plan: " ++ Render.render Literal.dquote ["define [scope]"; "survey"]
     ++ " - good luck!")
  = Returns (Literal.VList [Literal.VStr "define [scope]"; Literal.VStr "survey"]).
Proof.
  apply (RoundTrip.decode_plan_single_list "fusion" Literal.dquote
           ["define [scope]"; "survey"]); try reflexivity.
  - now right.
  - repeat constructor.
Qed.


Section PlannerClaims.
Import PyStr Literal LiteralFacts PlannerFacts.
Variable World : Type.
Variable gateway : request -> World -> result string * World.

Lemma planning_agent_inv topic (st st' : state World) plan :
  planning_agent World gateway topic st = (Returns plan, st') ->
  exists content w1,
    gateway (planner_request topic) (world st) = (Returns content, w1)
    /\ decode_plan topic content = Returns plan.
Proof.
  unfold planning_agent, bind, invoke, lift.
  destruct (gateway (planner_request topic) (world st)) as [[content| |] w1];
    try discriminate.
  destruct (decode_plan topic content) as [p| |] eqn:E; try discriminate.
  destruct (py_iter p); try discriminate.
  cbn. intros H. injection H as <- _. now eexists _, _.
Qed.

(** C5 (as amended).  A plan that the planner returns is a list or a
    tuple with at least one step, unless it is the empty list; the empty
    list is returned only when the response has a bracketed span that
    decodes to it. *)
Theorem plan_nonempty_unless_empty_list
  (topic : string) (st st' : state World) (plan : value) :
  planning_agent World gateway topic st = (Returns plan, st') ->
  (exists step rest,
     py_iter plan = Returns (step :: rest)
     /\ 1 <= List.length (step :: rest)
     /\ (plan = VList (step :: rest) \/ plan = VTuple (step :: rest)))
  \/ (plan = VList []
      /\ exists content w1 group,
           gateway (planner_request topic) (world st) = (Returns content, w1)
           /\ Re.search_list content = Some group
           /\ literal_eval group = Returns (VList [])).
Proof.
  intros H.
  destruct (planning_agent_inv _ _ _ _ H) as (content & w1 & Hg & Hd).
  destruct (decode_plan_shape _ _ _ Hd) as [[[|x items] ->]|(x & items & ->)].
  - right. split; [reflexivity|]. exists content, w1.
    unfold decode_plan in Hd.
    destruct (Re.search_list content) as [group|]; [|discriminate].
    now exists group.
  - left. exists x, items. cbn. repeat split; auto. lia.
  - left. exists x, items. cbn. repeat split; auto. lia.
Qed.

End PlannerClaims.

Section DecoderClaims.
Import PyStr Literal LiteralFacts PlannerFacts.

(** C1.  On a response whose bracketed text is not a Python literal the
    decoding step raises, and so do the planner and the whole pipeline:
    the plan does not fall back to the topic. *)
Theorem planner_aborts_on_undecodable_response :
  Re.search_list response_unquoted = Some "[define scope, survey literature]"
  /\ decode_plan "fusion" response_unquoted = Raises SyntaxError
  /\ fst (planning_agent nat (canned [response_unquoted] "none") "fusion" (start 0))
     = Raises SyntaxError
  /\ fst (run_research_pipeline nat (canned [response_unquoted] "none")
            fixed_date ratio_text "fusion" (start 0))
     = Raises SyntaxError.
Proof. repeat split; vm_compute; reflexivity. Qed.

(** C3.  The span handed to the decoder runs from the first "[" to the
    last "]" of the response.  When a well-formed list of strings is
    followed by further brackets the span is not a literal and the
    planner raises, although the first list by itself decodes to its
    strings. *)
Theorem planner_takes_span_to_last_bracket :
  Re.search_list response_two_lists
  = Some "['define scope', 'survey literature'] (see also ['notes']"
  /\ decode_plan "fusion" response_two_lists = Raises SyntaxError
  /\ fst (planning_agent nat (canned [response_two_lists] "none") "fusion" (start 0))
     = Raises SyntaxError
  /\ literal_eval "['define scope', 'survey literature']"
     = Returns (VList [VStr "define scope"; VStr "survey literature"]).
Proof. repeat split; vm_compute; reflexivity. Qed.

(** C4.  The decoder does not hold the plan to a list of strings.  On
    the response "[1, None]" the planner returns the list of the integer 1
    and [None], on "['a'], ['b']" a tuple of two lists; neither is a list
    of strings, and the run goes on to research the steps "1" and "None".
    Code in the response is not evaluated: a call or a name in the
    bracketed text makes the decoder raise [ValueError]. *)
Theorem planner_returns_plans_that_are_not_lists_of_strings :
  fst (planning_agent nat (canned ["[1, None]"] "none") "fusion" (start 0))
  = Returns (VList [VInt 1; VNone])
  /\ list_of_strings (VList [VInt 1; VNone]) = false
  /\ fst (planning_agent nat (canned ["['a'], ['b']"] "none") "fusion" (start 0))
     = Returns (VTuple [VList [VStr "a"]; VList [VStr "b"]])
  /\ list_of_strings (VTuple [VList [VStr "a"]; VList [VStr "b"]]) = false
  /\ list_of_strings (VList [VStr "define scope"; VStr "survey literature"]) = true
  /\ (let '(out, st') :=
        run_research_pipeline nat
          (canned ["[1, None]"; "finding 1"; "finding 2"; "DRAFT"; "CRITIQUE"; "FINAL"]
             "none")
          fixed_date ratio_text "fusion" (start 0) in
      out = Returns tt
      /\ invoked (log st')
         = [ planner_call "fusion";
             research_call "2025-01-01" "1";
             research_call "2025-01-01" "None";
             draft_call "fusion"
               (labelled_finding "1" "finding 1" ++ labelled_finding "None" "finding 2");
             critique_call "DRAFT";
             revise_call "CRITIQUE" "DRAFT" ])
  /\ decode_plan "fusion" "[open('/etc/passwd')]" = Raises ValueError
  /\ decode_plan "fusion" "[topic]" = Raises ValueError.
Proof. repeat split; vm_compute; reflexivity. Qed.

(** C5, counterexample.  On a response that ends in "[]" the planner
    returns the empty plan, of length 0. *)
Lemma plan_can_be_empty :
  exists plan steps,
    fst (planning_agent nat (canned ["I could not produce a plan: []"] "none")
           "fusion" (start 0))
    = Returns plan
    /\ py_iter plan = Returns steps
    /\ List.length steps = 0.
Proof. exists (VList []), []. repeat split. Qed.

Lemma plan_nonempty_unless_empty_list_witness :
  (exists step rest,
     py_iter (VList [VStr "define scope"; VStr "survey"]) = Returns (step :: rest)
     /\ 1 <= List.length (step :: rest)
     /\ (VList [VStr "define scope"; VStr "survey"] = VList (step :: rest)
         \/ VList [VStr "define scope"; VStr "survey"] = VTuple (step :: rest)))
  \/ (VList [VStr "define scope"; VStr "survey"] = VList []
      /\ exists content w1 group,
           canned ["Here it is: ['define scope', 'survey']"] "none"
             (planner_request "fusion") (world (start 0))
           = (Returns content, w1)
           /\ Re.search_list content = Some group
           /\ literal_eval group = Returns (VList [])).
Proof.
  eapply (plan_nonempty_unless_empty_list nat
            (canned ["Here it is: ['define scope', 'survey']"] "none")
            "fusion" (start 0)).
  vm_compute. reflexivity.
Defined.

End DecoderClaims.

(** *** The run against the texts spelled out *)

Section RunTrace.
Import PyStr Literal.
Variable World : Type.
Variable gateway : request -> World -> result string * World.
Variable today : World -> string.
Variable percent1 : Q -> string.

Local Abbreviation St := (state World).
Local Abbreviation entry := (value * (string * string))%type.

Lemma corpus_is_corpus_text (entries : list entry) :
  corpus (findings_of entries) = corpus_text entries.
Proof.
  induction entries as [|[step [date finding]] rest IH]; [reflexivity|].
  cbn [findings_of List.map corpus fst snd]. fold (findings_of rest).
  rewrite IH. reflexivity.
Qed.




End RunTrace.

Section OrchestratorClaims.
Import PyStr Literal PlannerFacts.
Variable World : Type.
Variable gateway : request -> World -> result string * World.
Variable today : World -> string.
Variable percent1 : Q -> string.

Local Abbreviation St := (state World).
Local Abbreviation entry := (value * (string * string))%type.



End OrchestratorClaims.

(** ** Runs with the example gateway *)



(** C9.  A run whose planner response holds a bracketed text that is
    not a Python literal ends at the planner with [SyntaxError]: after the
    one planning call nothing is researched, and no verdict and no final
    report are displayed.  On a response without any bracketed text the
    plan falls back to the topic and the run displays one verdict and one
    report. *)
Theorem pipeline_gives_no_report_on_undecodable_plan :
  (let '(out, st') :=
     run_research_pipeline nat
       (canned [response_unquoted; "finding"; "DRAFT"; "CRITIQUE"; "FINAL"] "none")
       fixed_date ratio_text "fusion" (start 0) in
   out = Raises SyntaxError
   /\ invoked (log st') = [planner_call "fusion"]
   /\ displayed ShowReport (log st') = []
   /\ displayed ShowVerdict (log st') = []
   /\ displayed ShowPlan (log st') = [])
  /\ (let '(out, st') :=
        run_research_pipeline nat
          (canned ["Steps: define scope, survey literature";
                   "finding"; "DRAFT"; "CRITIQUE"; "FINAL"] "none")
          fixed_date ratio_text "fusion" (start 0) in
      out = Returns tt
      /\ invoked (log st')
         = [ planner_call "fusion";
             research_call "2025-01-01" "fusion";
             draft_call "fusion" (labelled_finding "fusion" "finding");
             critique_call "DRAFT";
             revise_call "CRITIQUE" "DRAFT" ]
      /\ displayed ShowReport (log st') = ["FINAL"]
      /\ List.length (displayed ShowVerdict (log st')) = 1).
Proof. vm_compute. repeat split. Qed.

(** A gateway that becomes unavailable aborts the run: with answers for
    the planner and the first step only, the second research call raises
    and nothing is reported. *)
Example gateway_failure_aborts :
  let '(out, st') :=
    run_research_pipeline (list string) scripted fixed_date ratio_text "fusion"
      (start ["['step1', 'step2']"; "No sources were found."]) in
  out = Raises (GatewayError "ModelUnavailable")
  /\ displayed ShowReport (log st') = []
  /\ List.length (displayed ShowVerdict (log st')) = 1
  /\ List.map (fun r => model r) (invoked (log st'))
     = [PLANNER_MODEL; RESEARCH_MODEL; RESEARCH_MODEL].
Proof. vm_compute. repeat split. Qed.

(** The demo run end to end: two verdicts, FAIL then PASS, both steps
    researched, one report. *)
Example demo_run :
  let '(out, st') :=
    run_research_pipeline nat demo_gateway fixed_date ratio_text "fusion" (start 0) in
  out = Returns tt
  /\ displayed ShowReport (log st') = ["FINAL"]
  /\ List.length (displayed ShowVerdict (log st')) = 2
  /\ List.map (fun r => model r) (invoked (log st'))
     = [ PLANNER_MODEL; RESEARCH_MODEL; RESEARCH_MODEL;
         WRITER_MODEL; EDITOR_MODEL; WRITER_MODEL ]
  /\ List.map verdict_status ["No sources were found.";
                              "See https://arxiv.org/abs/2401.00001 for details."]
     = ["FAIL (Low Credibility)"; "PASS"].
Proof. vm_compute. repeat split. Qed.

(** * Further properties *)

(** ** What the URL extraction returns *)

Lemma span_url_split s :
  exists rest, s = Re.span_url s ++ rest /\ stops rest = true
               /\ Re.span_url (Re.span_url s) = Re.span_url s.
Proof.
  induction s as [|c s (rest & E & Hs & Hi)].
  - now exists EmptyString.
  - cbn [Re.span_url]. destruct (Re.url_char c) eqn:Ec.
    + exists rest. cbn [append Re.span_url]. rewrite Ec, Hi, <- E. auto.
    + exists (String c s). cbn. now rewrite Ec.
Qed.

Lemma span_url_all body :
  Re.span_url body = body <-> forallb Re.url_char (PyStr.chars body) = true.
Proof.
  induction body as [|c body IH]; [now split|].
  cbn [Re.span_url PyStr.chars forallb].
  destruct (Re.url_char c); cbn [andb].
  - rewrite <- IH. split; intros H; [now injection H|now rewrite H].
  - split; discriminate.
Qed.

Lemma match_scheme_prefix scheme s m :
  Re.match_scheme scheme s = Some m ->
  exists rest, s = m ++ rest /\ stops rest = true
               /\ Re.match_scheme scheme m = Some m.
Proof.
  unfold Re.match_scheme. intros H.
  destruct (PyStr.drop_prefix scheme s) as [body|] eqn:E; [|discriminate].
  apply drop_prefix_Some in E.
  destruct (span_url_split body) as (rest & Eb & Hs & Hi).
  destruct (Re.span_url body) as [|c t] eqn:Es; [discriminate|].
  injection H as <-. exists rest.
  split; [now rewrite string_app_assoc, <- Eb|].
  split; [exact Hs|].
  now rewrite drop_prefix_app, Hi.
Qed.

Lemma match_url_prefix s m :
  Re.match_url s = Some m ->
  exists rest, s = m ++ rest /\ stops rest = true /\ Re.match_url m = Some m.
Proof.
  unfold Re.match_url. intros H.
  destruct (Re.match_scheme "https://" s) as [m'|] eqn:E.
  - injection H as <-.
    destruct (match_scheme_prefix _ _ _ E) as (rest & -> & Hs & Hm).
    exists rest. now rewrite Hm.
  - destruct (match_scheme_prefix _ _ _ H) as (rest & -> & Hs & Hm).
    exists rest. split; [reflexivity|]. split; [exact Hs|].
    destruct (match_scheme_whole _ _ Hm) as (body & Eb & _ & _).
    rewrite Eb in Hm |- *. exact Hm.
Qed.

Lemma match_url_shape u :
  Re.match_url u = Some u ->
  exists scheme body,
    (scheme = "http://" \/ scheme = "https://")
    /\ u = scheme ++ body /\ body <> EmptyString
    /\ forallb Re.url_char (PyStr.chars body) = true.
Proof.
  unfold Re.match_url. intros H.
  destruct (Re.match_scheme "https://" u) as [m|] eqn:E.
  - injection H as ->.
    destruct (match_scheme_whole _ _ E) as (body & -> & Hs & Hne).
    exists "https://", body. repeat split; auto. now apply span_url_all.
  - destruct (match_scheme_whole _ _ H) as (body & -> & Hs & Hne).
    exists "http://", body. repeat split; auto. now apply span_url_all.
Qed.

Lemma string_length_app (a b : string) :
  String.length (a ++ b) = String.length a + String.length b.
Proof. induction a as [|c a IH]; cbn; [reflexivity|now rewrite IH]. Qed.

Lemma substring_cons c d u : substring d u -> substring d (String c u).
Proof. intros (pre & post & ->). now exists (String c pre), post. Qed.

Lemma findall_from_sound s : forall k u,
  In u (Re.findall_from k s) ->
  Re.match_url u = Some u /\ substring u s.
Proof.
  induction s as [|c s IH]; intros k u H; [now elim H|].
  cbn [Re.findall_from] in H. destruct k as [|k].
  - destruct (Re.match_url (String c s)) as [m|] eqn:E.
    + destruct H as [<-|H].
      * destruct (match_url_prefix _ _ E) as (rest & Es & _ & Hm).
        split; [exact Hm|]. exists EmptyString, rest. exact Es.
      * destruct (IH _ _ H) as [Hm Hs]. split; [exact Hm|].
        now apply substring_cons.
    + destruct (IH _ _ H) as [Hm Hs]. split; [exact Hm|].
      now apply substring_cons.
  - destruct (IH _ _ H) as [Hm Hs]. split; [exact Hm|].
    now apply substring_cons.
Qed.

(** X4.  Every URL that the evaluator extracts occurs in the text as it
    is, starts with "http://" or "https://" and goes on with at least one
    character, none of them white space, ")" or "]"; the pattern matches
    it as a whole. *)
Theorem extracted_urls_are_urls_of_the_text (research_output u : string) :
  In u (Re.findall_urls research_output) ->
  substring u research_output
  /\ Re.match_url u = Some u
  /\ exists scheme body,
       (scheme = "http://" \/ scheme = "https://")
       /\ u = scheme ++ body /\ body <> EmptyString
       /\ forallb Re.url_char (PyStr.chars body) = true.
Proof.
  intros H. destruct (findall_from_sound _ _ _ H) as [Hm Hs].
  split; [exact Hs|]. split; [exact Hm|]. now apply match_url_shape.
Qed.

Lemma extracted_urls_are_urls_of_the_text_witness :
  substring "https://arxiv.org/abs/2401.00001" finding_1_of_2
  /\ Re.match_url "https://arxiv.org/abs/2401.00001"
     = Some "https://arxiv.org/abs/2401.00001"
  /\ exists scheme body,
       (scheme = "http://" \/ scheme = "https://")
       /\ "https://arxiv.org/abs/2401.00001" = scheme ++ body
       /\ body <> EmptyString
       /\ forallb Re.url_char (PyStr.chars body) = true.
Proof.
  apply (extracted_urls_are_urls_of_the_text finding_1_of_2).
  vm_compute. now left.
Defined.

(** ** The score and the verdict *)

Lemma trusted_urls_length (urls : list string) :
  List.length (trusted_urls urls) <= List.length urls.
Proof. apply filter_length_le. Qed.

(** X5.  The score that the evaluator computes lies between 0 and 1, for
    every text. *)
Theorem score_between_0_and_1 (research_output : string) :
  exists score,
    score_of (trusted_urls (Re.findall_urls research_output))
             (Re.findall_urls research_output) = Returns score
    /\ (0 <= score)%Q /\ (score <= 1)%Q.
Proof.
  pose proof (trusted_urls_length (Re.findall_urls research_output)) as Hle.
  destruct (Re.findall_urls research_output) as [|u urls] eqn:E.
  - exists 0%Q. repeat split; [apply Qle_refl|discriminate].
  - remember (trusted_urls (u :: urls)) as t eqn:Et.
    unfold score_of, py_truediv. cbn [List.length] in *.
    remember (List.length urls) as n eqn:En.
    eexists. split; [reflexivity|].
    unfold Qle. cbn [Qnum Qden]. rewrite Zpos_of_nat_succ. split; lia.
Qed.

Lemma verdict_pass_counts (finding : string) :
  verdict_status finding = "PASS"
  <-> List.length (Re.findall_urls finding)
      < 2 * List.length (trusted_urls (Re.findall_urls finding)).
Proof.
  unfold verdict_status, score_value.
  destruct (score_of_returns (trusted_urls (Re.findall_urls finding))
              (Re.findall_urls finding)) as (score & E & _).
  rewrite E. now apply score_pass_counts.
Qed.

Lemma verdict_two_valued (finding : string) :
  verdict_status finding = "PASS"
  \/ verdict_status finding = "FAIL (Low Credibility)".
Proof.
  unfold verdict_status, status_of.
  destruct (Qgtb (score_value finding) (1 # 2)); [now left|now right].
Qed.

Lemma verdict_fail_counts (finding : string) :
  verdict_status finding = "FAIL (Low Credibility)"
  <-> 2 * List.length (trusted_urls (Re.findall_urls finding))
      <= List.length (Re.findall_urls finding).
Proof.
  pose proof (verdict_pass_counts finding) as P.
  destruct (verdict_two_valued finding) as [H|H].
  - split; intros L; [congruence|]. apply P in H. lia.
  - split; [|intros _; exact H]. intros _.
    destruct (Nat.le_gt_cases
                (2 * List.length (trusted_urls (Re.findall_urls finding)))
                (List.length (Re.findall_urls finding))) as [L|L];
      [exact L|]. apply P in L. congruence.
Qed.

Lemma filter_all {A} (f : A -> bool) (l : list A) :
  (forall x, In x l -> f x = true) -> filter f l = l.
Proof.
  induction l as [|x l IH]; intros H; [reflexivity|].
  cbn. rewrite (H x (or_introl eq_refl)). f_equal.
  apply IH. intros y Hy. apply H. now right.
Qed.

Lemma filter_none {A} (f : A -> bool) (l : list A) :
  (forall x, In x l -> f x = false) -> filter f l = [].
Proof.
  induction l as [|x l IH]; intros H; [reflexivity|].
  cbn. rewrite (H x (or_introl eq_refl)).
  apply IH. intros y Hy. apply H. now right.
Qed.

Section VerdictFacts.
Variable World : Type.
Variable percent1 : Q -> string.

(** X7.  The status that the evaluator returns is PASS only if the text
    cites at least one trusted URL; it is PASS when the text cites URLs
    and all of them are trusted, and FAIL when none is trusted. *)
Theorem pass_needs_a_trusted_url (research_output : string) (st : state World) :
  exists status,
    fst (eval_error_analysis World percent1 research_output st) = Returns status
    /\ (status = "PASS" ->
        exists u, In u (Re.findall_urls research_output) /\ is_trusted u = true)
    /\ (Re.findall_urls research_output <> [] ->
        (forall u, In u (Re.findall_urls research_output) -> is_trusted u = true) ->
        status = "PASS")
    /\ ((forall u, In u (Re.findall_urls research_output) -> is_trusted u = false) ->
        status = "FAIL (Low Credibility)").
Proof.
  exists (verdict_status research_output).
  split; [now rewrite eval_run|].
  split; [|split].
  - intros H. apply verdict_pass_counts in H.
    destruct (trusted_urls (Re.findall_urls research_output)) as [|u t] eqn:E;
      [cbn in H; lia|].
    exists u. apply filter_In. unfold trusted_urls in E. rewrite E. now left.
  - intros Hne Hall. apply verdict_pass_counts.
    unfold trusted_urls. rewrite (filter_all _ _ Hall).
    destruct (Re.findall_urls research_output); [now elim Hne|cbn; lia].
  - intros Hnone. apply verdict_fail_counts.
    unfold trusted_urls. rewrite (filter_none _ _ Hnone). cbn. lia.
Qed.

End VerdictFacts.

(** ** Extraction and verdict of joined texts *)

Lemma drop_prefix_sep scheme c b : forall a,
  forallb Re.url_char (PyStr.chars scheme) = true -> Re.url_char c = false ->
  PyStr.drop_prefix scheme (a ++ String c b)
  = match PyStr.drop_prefix scheme a with
    | Some r => Some (r ++ String c b)
    | None => None
    end.
Proof.
  induction scheme as [|x scheme IH]; intros a Hs Hc; [reflexivity|].
  cbn [PyStr.chars forallb] in Hs. apply andb_true_iff in Hs as [Hx Hs].
  destruct a as [|y a]; cbn [append PyStr.drop_prefix].
  - destruct (Ascii.eqb_spec x c) as [->|]; [congruence|reflexivity].
  - destruct (Ascii.eqb x y); [now apply IH|reflexivity].
Qed.

Lemma span_url_sep c b r :
  Re.url_char c = false -> Re.span_url (r ++ String c b) = Re.span_url r.
Proof.
  intros Hc. induction r as [|y r IH]; cbn [append Re.span_url].
  - now rewrite Hc.
  - now rewrite IH.
Qed.

Lemma match_scheme_sep scheme a c b :
  forallb Re.url_char (PyStr.chars scheme) = true -> Re.url_char c = false ->
  Re.match_scheme scheme (a ++ String c b) = Re.match_scheme scheme a.
Proof.
  intros Hs Hc. unfold Re.match_scheme.
  rewrite (drop_prefix_sep _ _ _ _ Hs Hc).
  destruct (PyStr.drop_prefix scheme a) as [r|]; [|reflexivity].
  now rewrite (span_url_sep _ _ _ Hc).
Qed.

(** A character outside the class cuts the text for the pattern. *)
Lemma match_url_sep a c b :
  Re.url_char c = false -> Re.match_url (a ++ String c b) = Re.match_url a.
Proof.
  intros Hc. unfold Re.match_url.
  rewrite (match_scheme_sep "https://" a c b eq_refl Hc).
  now rewrite (match_scheme_sep "http://" a c b eq_refl Hc).
Qed.

Lemma match_url_length s m :
  Re.match_url s = Some m -> String.length m <= String.length s.
Proof.
  intros H. destruct (match_url_prefix _ _ H) as (rest & -> & _).
  rewrite string_length_app. lia.
Qed.

Lemma findall_from_sep c b a : forall k,
  Re.url_char c = false -> k <= String.length a ->
  Re.findall_from k (a ++ String c b)
  = (Re.findall_from k a ++ Re.findall_from 0 b)%list.
Proof.
  induction a as [|y a IH]; intros k Hc Hk.
  - cbn in Hk. replace k with 0 by lia.
    pose proof (match_url_sep EmptyString c b Hc) as E. cbn [append] in E.
    cbn [append Re.findall_from]. now rewrite E.
  - cbn [append Re.findall_from]. destruct k as [|k].
    + pose proof (match_url_sep (String y a) c b Hc) as E. cbn [append] in E.
      rewrite E.
      destruct (Re.match_url (String y a)) as [m|] eqn:Em.
      * pose proof (match_url_length _ _ Em) as L. cbn [String.length] in L.
        rewrite IH by (auto; lia). reflexivity.
      * apply IH; [exact Hc|lia].
    + apply IH; [exact Hc|cbn in Hk; lia].
Qed.

Lemma extraction_of_joined_texts_aux (a b : string) (c : ascii) :
  Re.url_char c = false ->
  Re.findall_urls (a ++ String c b)
  = (Re.findall_urls a ++ Re.findall_urls b)%list.
Proof. intros Hc. unfold Re.findall_urls. apply findall_from_sep; [exact Hc|lia]. Qed.

(** X6.  Extraction goes through a join: when two texts are put together
    with white space, ")" or "]" between them, the URLs of the whole are
    the URLs of the first followed by the URLs of the second. *)
Theorem extraction_of_joined_texts (a b : string) (c : ascii) :
  Re.url_char c = false ->
  Re.findall_urls (a ++ String c b)
  = (Re.findall_urls a ++ Re.findall_urls b)%list.
Proof. exact (extraction_of_joined_texts_aux a b c). Qed.

Lemma extraction_of_joined_texts_witness :
  Re.findall_urls (finding_1_of_2 ++ String " " finding_3_of_4)
  = (Re.findall_urls finding_1_of_2 ++ Re.findall_urls finding_3_of_4)%list.
Proof. apply (extraction_of_joined_texts finding_1_of_2 finding_3_of_4 " "). reflexivity. Defined.

Lemma trusted_urls_app (l1 l2 : list string) :
  trusted_urls (l1 ++ l2) = (trusted_urls l1 ++ trusted_urls l2)%list.
Proof. apply filter_app. Qed.

Section JoinedVerdict.
Variable World : Type.
Variable percent1 : Q -> string.

(** X8.  When the evaluator gives two findings the same status, it gives
    that status to the two findings joined by white space, ")" or "]". *)
Theorem joined_findings_keep_common_status
  (a b : string) (c : ascii) (status : string) (st : state World) :
  Re.url_char c = false ->
  fst (eval_error_analysis World percent1 a st) = Returns status ->
  fst (eval_error_analysis World percent1 b st) = Returns status ->
  fst (eval_error_analysis World percent1 (a ++ String c b) st) = Returns status.
Proof.
  rewrite !eval_run. cbn [fst]. intros Hc Ha Hb.
  injection Ha as Ha. injection Hb as Hb. f_equal.
  destruct (verdict_two_valued a) as [P|F].
  - assert (Pb : verdict_status b = "PASS") by congruence.
    rewrite <- Ha, P. apply verdict_pass_counts.
    apply verdict_pass_counts in P, Pb.
    rewrite (extraction_of_joined_texts_aux a b c Hc), trusted_urls_app, !length_app.
    lia.
  - assert (Fb : verdict_status b = "FAIL (Low Credibility)") by congruence.
    rewrite <- Ha, F. apply verdict_fail_counts.
    apply verdict_fail_counts in F, Fb.
    rewrite (extraction_of_joined_texts_aux a b c Hc), trusted_urls_app, !length_app.
    lia.
Qed.

End JoinedVerdict.

(** ** The span that the planner decodes *)

Lemma has_char_app c (a b : string) :
  Literal.has_char c (a ++ b) = Literal.has_char c a || Literal.has_char c b.
Proof.
  unfold Literal.has_char. induction a as [|x a IH]; [reflexivity|].
  cbn [append PyStr.chars existsb]. now rewrite IH, orb_assoc.
Qed.

Lemma has_char_here c (s : string) : Literal.has_char c (String c s) = true.
Proof. unfold Literal.has_char. cbn. now rewrite Ascii.eqb_refl. Qed.

Lemma search_list_no_close s :
  Literal.has_char "]" s = false -> Re.search_list s = None.
Proof.
  induction s as [|c s IH]; intros H; [reflexivity|].
  unfold Literal.has_char in H. cbn [PyStr.chars existsb] in H.
  apply orb_false_iff in H as [_ H].
  cbn [Re.search_list].
  rewrite (proj2 (PlannerFacts.upto_last_close_None s) H).
  destruct (Ascii.eqb c "["); now apply IH.
Qed.

Lemma search_list_span s : forall g,
  Re.search_list s = Some g ->
  exists pre mid post,
    s = pre ++ String "[" (mid ++ String "]" post)
    /\ Literal.has_char "[" pre = false
    /\ Literal.has_char "]" post = false
    /\ g = String "[" (mid ++ "]").
Proof.
  induction s as [|c s IH]; intros g H; [discriminate|].
  cbn [Re.search_list] in H.
  destruct (Ascii.eqb_spec c "[") as [->|Hc].
  - destruct (Re.upto_last_close s) as [p|] eqn:E.
    + injection H as <-.
      destruct (PlannerFacts.upto_last_close_spec _ _ E)
        as (mid & post & -> & -> & Hn).
      exists EmptyString, mid, post.
      split; [cbn [append]; now rewrite string_app_assoc|].
      split; [reflexivity|].
      split; [now apply PlannerFacts.upto_last_close_None|reflexivity].
    + apply PlannerFacts.upto_last_close_None in E.
      rewrite (search_list_no_close _ E) in H. discriminate.
  - destruct (IH g H) as (pre & mid & post & -> & Hpre & Hpost & ->).
    exists (String c pre), mid, post. repeat split; auto.
    unfold Literal.has_char in *. cbn [PyStr.chars existsb].
    rewrite Hpre, orb_false_r.
    destruct (Ascii.eqb_spec "[" c) as [<-|]; [now elim Hc|reflexivity].
Qed.

Lemma search_list_finds pre : forall mid post,
  Re.search_list (pre ++ String "[" (mid ++ String "]" post)) <> None.
Proof.
  assert (Hclose : forall mid post,
             Re.upto_last_close (mid ++ String "]" post) <> None).
  { intros mid post E. apply PlannerFacts.upto_last_close_None in E.
    rewrite has_char_app, has_char_here, orb_true_r in E. discriminate. }
  induction pre as [|c pre IH]; intros mid post; cbn [append Re.search_list].
  - rewrite Ascii.eqb_refl.
    destruct (Re.upto_last_close (mid ++ String "]" post)) eqn:E;
      [discriminate|now elim (Hclose mid post)].
  - destruct (Ascii.eqb c "["); [|apply IH].
    destruct (Re.upto_last_close (pre ++ String "[" (mid ++ String "]" post))) eqn:E;
      [discriminate|].
    apply PlannerFacts.upto_last_close_None in E.
    rewrite has_char_app in E. apply orb_false_iff in E as [_ E].
    unfold Literal.has_char in E. cbn [PyStr.chars existsb] in E.
    apply orb_false_iff in E as [_ E].
    fold (Literal.has_char "]" (mid ++ String "]" post)) in E.
    rewrite has_char_app, has_char_here, orb_true_r in E. discriminate.
Qed.

Lemma search_list_None_iff s :
  Re.search_list s = None
  <-> (forall pre mid post, s <> pre ++ String "[" (mid ++ String "]" post)).
Proof.
  split.
  - intros H pre mid post ->. now apply (search_list_finds pre mid post).
  - intros H. destruct (Re.search_list s) as [g|] eqn:E; [|reflexivity].
    destruct (search_list_span _ _ E) as (pre & mid & post & Es & _).
    now elim (H pre mid post).
Qed.

(** X3.  The pattern of the planner finds the span that runs from the
    first "[" of the response to its last "]": a span is found exactly
    when the response reads [pre ++ "[" ++ mid ++ "]" ++ post] with no "["
    in [pre] and no "]" in [post], and it is ["[" ++ mid ++ "]"].  Nothing
    is found exactly when no "[" of the response has a "]" after it. *)
Theorem planner_span_is_first_open_to_last_close (content : string) :
  (forall g,
     Re.search_list content = Some g
     <-> exists pre mid post,
           content = pre ++ String "[" (mid ++ String "]" post)
           /\ Literal.has_char "[" pre = false
           /\ Literal.has_char "]" post = false
           /\ g = String "[" (mid ++ "]"))
  /\ (Re.search_list content = None
      <-> forall pre mid post,
            content <> pre ++ String "[" (mid ++ String "]" post)).
Proof.
  split; [|apply search_list_None_iff].
  intros g. split; [apply search_list_span|].
  intros (pre & mid & post & -> & Hpre & Hpost & ->).
  now apply RoundTrip.search_list_single.
Qed.

Section PlannerRuns.
Import PyStr Literal Render.
Variable World : Type.
Variable gateway : request -> World -> result string * World.

(** X1.  When no "[" of the planner response has a "]" after it, the
    planner returns the one-step plan made of the topic, unchanged, and
    displays it as the workflow. *)
Theorem planner_falls_back_to_topic
  (topic content : string) (st : state World) (w1 : World) :
  gateway (planner_request topic) (world st) = (Returns content, w1) ->
  (forall pre mid post, content <> pre ++ String "[" (mid ++ String "]" post)) ->
  planning_agent World gateway topic st
  = (Returns (VList [VStr topic]),
     {| world := w1;
        log := (log st
                ++ [ Invoke (planner_request topic);
                     Display ShowPlan
                       ("### Step 1: Planning" ++ nl ++ "**Workflow:**" ++ nl
                        ++ "- " ++ topic) ])%list |}).
Proof.
  intros Hg Hno. apply search_list_None_iff in Hno.
  apply (planning_run World gateway topic st content w1
           (VList [VStr topic]) [VStr topic] Hg).
  - now apply PlannerFacts.decode_plan_fallback.
  - reflexivity.
Qed.


End PlannerRuns.

Lemma planner_falls_back_to_topic_witness :
  planning_agent nat (canned ["I cannot help with that (sorry)."] "none")
    "fusion" (start 0)
  = (Returns (Literal.VList [Literal.VStr "fusion"]),
     {| world := 1;
        log := (log (start 0)
                ++ [ Invoke (planner_request "fusion");
                     Display ShowPlan
                       ("### Step 1: Planning" ++ PyStr.nl ++ "**Workflow:**"
                        ++ PyStr.nl ++ "- " ++ "fusion") ])%list |}).
Proof.
  apply (planner_falls_back_to_topic nat
           (canned ["I cannot help with that (sorry)."] "none")
           "fusion" "I cannot help with that (sorry)." (start 0) 1).
  - reflexivity.
  - apply search_list_None_iff. reflexivity.
Defined.


Lemma joined_findings_keep_common_status_witness :
  fst (eval_error_analysis nat ratio_text
         (finding_3_of_4 ++ String " " "More: https://web.mit.edu/fusion") (start 0))
  = Returns "PASS".
Proof.
  apply (joined_findings_keep_common_status nat ratio_text
           finding_3_of_4 "More: https://web.mit.edu/fusion" " " "PASS" (start 0));
    reflexivity.
Defined.

(** ** Effects of the agents, for every gateway *)

Section Effects.
Import PyStr Literal.
Variable World : Type.
Variable gateway : request -> World -> result string * World.
Variable today : World -> string.
Variable percent1 : Q -> string.

Local Abbreviation St := (state World).

Lemma adds_only_ret {A} P (a : A) : adds_only P (ret World a).
Proof. intros st. exists []. cbn. now rewrite app_nil_r. Qed.


Lemma adds_only_date P : adds_only P (current_date World today).
Proof. intros st. exists []. cbn. now rewrite app_nil_r. Qed.

Lemma adds_only_invoke (P : event -> Prop) r :
  P (Invoke r) -> adds_only P (invoke World gateway r).
Proof.
  intros H st. exists [Invoke r]. unfold invoke.
  destruct (gateway r (world st)) as [out w]. cbn. auto.
Qed.


Lemma adds_only_bind {A B} P (m : M World A) (k : A -> M World B) :
  adds_only P m -> (forall a, adds_only P (k a)) -> adds_only P (bind World m k).
Proof.
  intros Hm Hk st. destruct (Hm st) as (l1 & E1 & F1). unfold bind.
  destruct (m st) as [[a| |] st1]; cbn [snd] in *; try (exists l1; now split).
  destruct (Hk a st1) as (l2 & E2 & F2).
  exists (l1 ++ l2)%list. rewrite E2, E1, app_assoc. split; [reflexivity|].
  apply Forall_app. now split.
Qed.

Lemma adds_only_weaken {A} (P Q : event -> Prop) (m : M World A) :
  (forall e, P e -> Q e) -> adds_only P m -> adds_only Q m.
Proof.
  intros H Hm st. destruct (Hm st) as (l & E & F). exists l.
  split; [exact E|]. eapply Forall_impl; eauto.
Qed.

Lemma eval_adds_verdict (finding : string) :
  adds_only (fun e => exists md, e = Display ShowVerdict md)
    (eval_error_analysis World percent1 finding).
Proof.
  intros st. rewrite eval_run. eexists [_]. cbn. split; [reflexivity|].
  constructor; [now eexists|constructor].
Qed.

Lemma research_event_mono steps step e :
  research_event steps e -> research_event (step :: steps) e.
Proof.
  destruct e as [r|s md]; cbn; [|auto].
  intros (date & x & Hin & ->). exists date, x. auto.
Qed.

Lemma research_loop_effects (steps : list value) : forall acc,
  adds_only (research_event steps)
    (research_loop World gateway today percent1 steps acc).
Proof.
  induction steps as [|step rest IH]; intros acc; [apply adds_only_ret|].
  cbn [research_loop].
  apply adds_only_bind.
  - unfold tools_usage_agent. apply adds_only_bind; [apply adds_only_date|].
    intros date. apply adds_only_invoke. cbn. exists date, step. auto.
  - intros raw. apply adds_only_bind.
    + eapply adds_only_weaken; [|apply eval_adds_verdict].
      intros e [md ->]. reflexivity.
    + intros _. eapply adds_only_weaken; [|apply IH].
      intros e. apply research_event_mono.
Qed.







(** X12.  For every gateway, the loop over a plan only makes research
    requests for steps of that plan and only displays verdicts; it makes
    at most one request per step and displays no more verdicts than it
    made requests.  This holds also when a call fails on the way. *)
Theorem research_loop_only_researches (steps : list value) (acc : string) (st : St) :
  exists l,
    log (snd (research_loop World gateway today percent1 steps acc st))
    = (log st ++ l)%list
    /\ Forall (research_event steps) l
    /\ List.length (invoked l) <= List.length steps
    /\ List.length (displayed ShowVerdict l) <= List.length (invoked l).
Proof.
  destruct (research_loop_effects steps acc st) as (l & E & F).
  exists l. split; [exact E|]. split; [exact F|].
  clear F. revert acc st l E.
  induction steps as [|step rest IH]; intros acc st l E.
  - cbn in E. rewrite <- (app_nil_r (log st)) in E at 1.
    apply app_inv_head in E. subst l. cbn. lia.
  - cbn [research_loop] in E. unfold bind at 1 in E.
    unfold tools_usage_agent, current_date, bind at 1, invoke in E.
    destruct (gateway (research_request (today (world st)) step) (world st))
      as [[raw| |] w] eqn:Eg; cbn [fst snd log] in E;
      try (apply app_inv_head in E; subst l; cbn; lia).
    unfold bind at 1 in E. rewrite eval_run in E. unfold record in E.
    cbn [world log] in E.
    destruct (research_loop_effects rest (acc ++ finding_entry step raw)
                {| world := w;
                   log := ((log st ++ [Invoke (research_request (today (world st)) step)])
                           ++ [Display ShowVerdict (verdict_text percent1 raw)])%list |})
      as (l' & E' & _).
    pose proof (IH _ _ _ E') as [H1 H2].
    rewrite E' in E. cbn [log] in E. rewrite <- !app_assoc in E.
    apply app_inv_head in E. subst l.
    rewrite !invoked_app, !displayed_app, !length_app.
    change (List.length (invoked [Invoke (research_request (today (world st)) step)]))
      with 1.
    change (List.length (displayed ShowVerdict
                           [Invoke (research_request (today (world st)) step)]))
      with 0.
    change (List.length (invoked [Display ShowVerdict (verdict_text percent1 raw)]))
      with 0.
    change (List.length (displayed ShowVerdict
                           [Display ShowVerdict (verdict_text percent1 raw)]))
      with 1.
    cbn [List.length]. lia.
Qed.


End Effects.

(** ** How the loops compose and where they stop *)

Section LoopFacts.
Import PyStr Literal.
Variable World : Type.
Variable gateway : request -> World -> result string * World.
Variable today : World -> string.
Variable percent1 : Q -> string.

Local Abbreviation St := (state World).
Local Abbreviation loop := (research_loop World gateway today percent1).

Lemma research_loop_step step rest acc (st : St) :
  loop (step :: rest) acc st
  = match tools_usage_agent World gateway today step st with
    | (Returns raw, st1) =>
        loop rest (acc ++ finding_entry step raw)
          (record World (Display ShowVerdict (verdict_text percent1 raw)) st1)
    | (Raises e, st1) => (Raises e, st1)
    | (Unmodelled, st1) => (Unmodelled, st1)
    end.
Proof.
  cbn [research_loop]. unfold bind at 1.
  destruct (tools_usage_agent World gateway today step st) as [[raw| |] st1];
    try reflexivity.
  unfold bind at 1. now rewrite eval_run.
Qed.

(** X9.  For every gateway, the loop over a plan made of two parts is the
    loop over the first part followed, when that returns, by the loop over
    the second part from the corpus and the state reached; when the first
    part raises, the second part is not started. *)
Theorem research_loop_over_two_parts
  (steps1 steps2 : list value) (acc : string) (st : St) :
  loop (steps1 ++ steps2) acc st
  = match loop steps1 acc st with
    | (Returns acc1, st1) => loop steps2 acc1 st1
    | (Raises e, st1) => (Raises e, st1)
    | (Unmodelled, st1) => (Unmodelled, st1)
    end.
Proof.
  revert acc st. induction steps1 as [|step rest IH]; intros acc st; [reflexivity|].
  cbn [app]. rewrite !research_loop_step.
  destruct (tools_usage_agent World gateway today step st) as [[raw| |] st1];
    try reflexivity.
  apply IH.
Qed.

(** X10.  For every gateway, what the loop asks and displays does not
    depend on the corpus gathered so far: from two different corpora it
    reaches the same state and log, and it either appends the same text to
    both or stops with the same outcome. *)
Theorem research_ignores_the_corpus
  (steps : list value) (acc acc' : string) (st : St) :
  (exists added st',
     loop steps acc st = (Returns (acc ++ added), st')
     /\ loop steps acc' st = (Returns (acc' ++ added), st'))
  \/ (exists out st',
        returned out = false
        /\ loop steps acc st = (out, st')
        /\ loop steps acc' st = (out, st')).
Proof.
  revert acc acc' st. induction steps as [|step rest IH]; intros acc acc' st.
  - left. exists EmptyString, st. cbn. now rewrite !string_app_nil_r.
  - rewrite !research_loop_step.
    destruct (tools_usage_agent World gateway today step st) as [[raw|e|] st1];
      [|right; exists (Raises e), st1; now repeat split
       |right; exists Unmodelled, st1; now repeat split].
    destruct (IH (acc ++ finding_entry step raw) (acc' ++ finding_entry step raw)
                (record World (Display ShowVerdict (verdict_text percent1 raw)) st1))
      as [(added & st' & E1 & E2)|(out & st' & Hr & E1 & E2)].
    + left. exists (finding_entry step raw ++ added), st'.
      rewrite E1, E2, !string_app_assoc. auto.
    + right. exists out, st'. auto.
Qed.

(** X14.  For every gateway, the reflection loop stops at the first call
    that does not return and hands on its outcome: after a failed draft
    call no critique is asked for, after a failed critique no revision;
    otherwise its outcome is that of the revision call. *)
Theorem reflection_stops_at_first_failure (topic data : string) (st : St) :
  (exists out w1,
     gateway (draft_request topic data) (world st) = (out, w1)
     /\ returned out = false
     /\ drafting_reflection_loop World gateway topic data st
        = (out, {| world := w1;
                   log := (log st ++ [Invoke (draft_request topic data)])%list |}))
  \/ (exists draft w1 out w2,
        gateway (draft_request topic data) (world st) = (Returns draft, w1)
        /\ gateway (critique_request draft) w1 = (out, w2)
        /\ returned out = false
        /\ drafting_reflection_loop World gateway topic data st
           = (out,
              {| world := w2;
                 log := (log st
                         ++ [ Invoke (draft_request topic data);
                              Display ShowDraftDone "### Step 3: Initial Drafting Complete";
                              Invoke (critique_request draft) ])%list |}))
  \/ (exists draft w1 reflection w2 out w3,
        gateway (draft_request topic data) (world st) = (Returns draft, w1)
        /\ gateway (critique_request draft) w1 = (Returns reflection, w2)
        /\ gateway (revise_request reflection draft) w2 = (out, w3)
        /\ drafting_reflection_loop World gateway topic data st
           = (out,
              {| world := w3;
                 log := (log st
                         ++ [ Invoke (draft_request topic data);
                              Display ShowDraftDone "### Step 3: Initial Drafting Complete";
                              Invoke (critique_request draft);
                              Display ShowCritique
                                ("*** Step 4: Reflection & Critique" ++ nl ++ reflection);
                              Invoke (revise_request reflection draft) ])%list |})).
Proof.
  unfold drafting_reflection_loop, bind, invoke, display, record, ret.
  destruct (gateway (draft_request topic data) (world st)) as [out1 w1] eqn:E1.
  destruct out1 as [draft|e|];
    [|left; exists (Raises e), w1; now repeat split
     |left; exists Unmodelled, w1; now repeat split].
  right. cbn [world log].
  destruct (gateway (critique_request draft) w1) as [out2 w2] eqn:E2.
  destruct out2 as [reflection|e|];
    [|left; exists draft, w1, (Raises e), w2;
      rewrite <- !app_assoc; now repeat split
     |left; exists draft, w1, Unmodelled, w2;
      rewrite <- !app_assoc; now repeat split].
  right. cbn [world log].
  destruct (gateway (revise_request reflection draft) w2) as [out3 w3] eqn:E3.
  exists draft, w1, reflection, w2, out3, w3.
  split; [reflexivity|]. split; [exact E2|]. split; [exact E3|].
  destruct out3; rewrite <- !app_assoc; reflexivity.
Qed.







End LoopFacts.




(** ** The exceptions of a run *)

Module DecoderErrors.
Import PyStr Literal LiteralFacts PlannerFacts.






End DecoderErrors.

Section RunErrors.
Import PyStr Literal.
Variable World : Type.
Variable gateway : request -> World -> result string * World.
Variable today : World -> string.
Variable percent1 : Q -> string.

Local Abbreviation St := (state World).






Lemma raises_only_weaken {A} (P Q : exn -> Prop) (m : M World A) :
  (forall e, P e -> Q e) -> raises_only P m -> raises_only Q m.
Proof. intros H Hm st e st' E. apply H. eapply Hm; eauto. Qed.







End RunErrors.

